(** * NetBIOS name-service client (dab/netbios.py): a shallow embedding

    The module is Python 3 code (it builds [bytes(s, 'ascii')] and
    [str(b, 'ascii')]).  Python [int] is [Z]; a [str] is the list of its
    Unicode code points; a [bytes] object is a list of [byte]; a raised
    exception is the [Raise] branch of [result]. *)

From Stdlib Require Import ZArith NArith List Lia Bool.
From Stdlib Require Import Strings.String Strings.Ascii Strings.Byte.
Import ListNotations.
Open Scope Z_scope.

(** ** Python run-time: exceptions, str, bytes, struct *)

Module Py.

Inductive exn : Type :=
| Exception            (* the bare [raise Exception] *)
| AssertionError
| AttributeError
| IndexError
| NameError
| ValueError
| OverflowError
| StructError          (* struct.error *)
| UnicodeEncodeError
| UnicodeDecodeError
| OSError (errno : Z). (* select.error and socket.error are OSError *)

Inductive result (A : Type) : Type :=
| Ok (a : A)
| Raise (e : exn).
Arguments Ok {A} a.
Arguments Raise {A} e.

Definition bind {A B} (r : result A) (k : A -> result B) : result B :=
  match r with
  | Ok a => k a
  | Raise e => Raise e
  end.

Definition char := N.
Definition str := list char.
Definition bytes := list byte.

Definition lit (s : string) : str :=
  map N_of_ascii (list_ascii_of_string s).

Definition blit (s : string) : bytes :=
  map byte_of_ascii (list_ascii_of_string s).

Definition len {A} (l : list A) : Z := Z.of_nat (List.length l).

Definition ord (c : char) : Z := Z.of_N c.

(** [chr(i)]: OverflowError when [i] does not fit a C int, ValueError
    when it fits but is no code point. *)
Definition chr (i : Z) : result char :=
  if (i <? -2147483648) || (2147483647 <? i) then Raise OverflowError
  else if (0 <=? i) && (i <? 0x110000) then Ok (Z.to_N i)
  else Raise ValueError.

(** [l[i]] for an int [i]; a negative index counts from the end. *)
Definition getitem {A} (l : list A) (i : Z) : result A :=
  let j := if i <? 0 then i + len l else i in
  if j <? 0 then Raise IndexError
  else match nth_error l (Z.to_nat j) with
       | Some x => Ok x
       | None => Raise IndexError
       end.

(** [l[a:b]] for ints [0 <= a], [0 <= b]: bounds are clamped, never an
    error. *)
Definition slice {A} (l : list A) (a b : Z) : list A :=
  firstn (Z.to_nat (b - a)) (skipn (Z.to_nat a) l).

Definition int_of_byte (b : byte) : Z := Z.of_N (Byte.to_N b).

Definition byte_of_int (v : Z) : option byte :=
  if v <? 0 then None else Byte.of_N (Z.to_N v).

(** [bytes(s, 'ascii')] *)
Fixpoint bytes_ascii (s : str) : result bytes :=
  match s with
  | [] => Ok []
  | c :: rest =>
      if (c <? 128)%N
      then match Byte.of_N c with
           | Some b => bind (bytes_ascii rest) (fun t => Ok (b :: t))
           | None => Raise UnicodeEncodeError
           end
      else Raise UnicodeEncodeError
  end.

(** [str(b, 'ascii')] *)
Fixpoint str_ascii (b : bytes) : result str :=
  match b with
  | [] => Ok []
  | x :: rest =>
      if (Byte.to_N x <? 128)%N
      then bind (str_ascii rest) (fun t => Ok (Byte.to_N x :: t))
      else Raise UnicodeDecodeError
  end.

(** [bytes.isspace] on one byte: space, \t, \n, \v, \f, \r. *)
Definition is_space (b : byte) : bool :=
  let n := Byte.to_N b in
  ((n =? 32) || ((9 <=? n) && (n <=? 13)))%N.

Fixpoint dropwhile {A} (p : A -> bool) (l : list A) : list A :=
  match l with
  | [] => []
  | x :: rest => if p x then dropwhile p rest else l
  end.

Definition lstrip (b : bytes) : bytes := dropwhile is_space b.

Definition rstrip (b : bytes) : bytes := rev (dropwhile is_space (rev b)).

(** [bytes.strip()] with no argument: ASCII whitespace off both ends. *)
Definition strip (b : bytes) : bytes := rstrip (lstrip b).

(** [str.ljust(width)]: pad with spaces on the right. *)
Definition ljust (s : str) (width : Z) : str :=
  s ++ repeat 32%N (Z.to_nat (width - len s)).

Definition str_eqb (a b : str) : bool :=
  if list_eq_dec N.eq_dec a b then true else false.

(** [string.ascii_uppercase] *)
Definition ascii_uppercase : str := lit "ABCDEFGHIJKLMNOPQRSTUVWXYZ".

(** [string.split]: the Python 3 [string] module has no such attribute
    (it went with Python 2), so evaluating [string.split] raises. *)
Definition string_split (s sep : str) : result (list str) :=
  Raise AttributeError.

(** [re.sub('.', repl, s)]: the dot matches every character but the
    newline, which is copied as it is. *)
Fixpoint re_sub_dot (repl : char -> result str) (s : str) : result str :=
  match s with
  | [] => Ok []
  | c :: rest =>
      bind (if (c =? 10)%N then Ok [c] else repl c) (fun r =>
      bind (re_sub_dot repl rest) (fun t => Ok (r ++ t)))
  end.

(** struct: a format is a big-endian sequence of codes; only [H]
    (unsigned 16-bit) occurs. *)
Inductive fmtchar : Type := H.

Definition calcsize (fmt : list fmtchar) : Z := 2 * len fmt.

Definition pack_H (v : Z) : result bytes :=
  if (0 <=? v) && (v <=? 0xFFFF)
  then match byte_of_int (Z.shiftr v 8), byte_of_int (Z.land v 0xFF) with
       | Some hi, Some lo => Ok [hi; lo]
       | _, _ => Raise StructError
       end
  else Raise StructError.

Fixpoint pack (fmt : list fmtchar) (vs : list Z) : result bytes :=
  match fmt, vs with
  | [], [] => Ok []
  | H :: fmt', v :: vs' =>
      bind (pack_H v) (fun b => bind (pack fmt' vs') (fun t => Ok (b ++ t)))
  | _, _ => Raise StructError
  end.

Fixpoint unpack_words (fmt : list fmtchar) (data : bytes) : result (list Z) :=
  match fmt, data with
  | [], [] => Ok []
  | H :: fmt', hi :: lo :: data' =>
      bind (unpack_words fmt' data') (fun t =>
        Ok (Z.lor (Z.shiftl (int_of_byte hi) 8) (int_of_byte lo) :: t))
  | _, _ => Raise StructError
  end.

Definition unpack (fmt : list fmtchar) (data : bytes) : result (list Z) :=
  if len data =? calcsize fmt then unpack_words fmt data
  else Raise StructError.

End Py.

Import Py.

Notation "x <- e ;; k" := (bind e (fun x => k))
  (at level 61, e at next level, right associativity).

(** ** class NetBIOS: the pure methods *)

Definition TYPE_SERVER : Z := 0x20.
Definition HEADER_STRUCT_FORMAT : list fmtchar := [H; H; H; H; H; H].
Definition HEADER_STRUCT_SIZE : Z := calcsize HEADER_STRUCT_FORMAT.

Definition _do_first_level_encoding (m : char) : result str :=
  let s := ord m in
  a <- getitem ascii_uppercase (Z.shiftr s 4) ;;
  b <- getitem ascii_uppercase (Z.land s 0x0f) ;;
  Ok [a; b].

(** The truth value of the [scope] argument: [None] and [''] are false. *)
Definition truthy_scope (scope : option str) : bool :=
  match scope with
  | Some (_ :: _) => true
  | _ => false
  end.

(** The text of a true [scope]. *)
Definition scope_text (scope : option str) : str :=
  match scope with
  | Some s => s
  | None => []
  end.

(** The [for s in string.split(scope, '.')] loop body, folded over the
    labels. *)
Fixpoint encode_scope_labels (labels : list str) (encoded_scope : str)
  : result str :=
  match labels with
  | [] => Ok encoded_scope
  | s :: rest =>
      c <- chr (len s) ;;
      encode_scope_labels rest (encoded_scope ++ [c] ++ s)
  end.

(** The [if name == '*' / elif len(name) > 15 / else] statement: the
    value it binds [name] to. *)
Definition padded_name (name : str) (type : Z) : result str :=
  if str_eqb name (lit "*") then Ok (name ++ repeat 0%N 15)
  else if len name >? 15 then (c <- chr type ;; Ok (firstn 15 name ++ [c]))
  else (c <- chr type ;; Ok (ljust name 15 ++ [c])).

Definition _encode_name (name : str) (type : Z) (scope : option str)
  : result bytes :=
  name <- padded_name name type ;;
  l <- chr (len name * 2) ;;
  enc <- re_sub_dot _do_first_level_encoding name ;;
  let encoded_name := l :: enc in
  if truthy_scope scope then
    labels <- string_split (scope_text scope) (lit ".") ;;
    encoded_scope <- encode_scope_labels labels [] ;;
    bytes_ascii (encoded_name ++ encoded_scope ++ [0%N])
  else
    bytes_ascii (encoded_name ++ [0%N]).

Definition _prepare_net_name_query (trn_id : Z) (is_broadcast : bool)
  : result bytes :=
  header <- pack HEADER_STRUCT_FORMAT
              [trn_id; (if is_broadcast then 0x0010 else 0x0000); 1; 0; 0; 0] ;;
  name <- _encode_name (lit "*") 0 None ;;
  let payload := name ++ [x00; x21; x00; x01] in
  Ok (header ++ payload).

(** One turn of the [for i in range(0, numnames)] loop per [n]; [offset]
    and [ret] are the loop's variables. *)
Fixpoint decode_names (data : bytes) (n : nat) (offset : Z)
  (ret : list (str * Z)) : result (list (str * Z)) :=
  match n with
  | O => Ok ret
  | S n' =>
      let mynme := slice data offset (offset + 15) in
      let mynme := strip mynme in
      name <- str_ascii mynme ;;
      type <- getitem data (offset + 15) ;;
      decode_names data n' (offset + 18) (ret ++ [(name, int_of_byte type)])
  end.

Definition _decode_ip_query_packet (data : bytes)
  : result (Z * option (list (str * Z))) :=
  if len data <? HEADER_STRUCT_SIZE then Raise Exception
  else
    fields <- unpack HEADER_STRUCT_FORMAT (slice data 0 HEADER_STRUCT_SIZE) ;;
    match fields with
    | [trn_id; code; question_count; answer_count; authority_count;
       additional_count] =>
        let is_response := negb (Z.land (Z.shiftr code 15) 0x01 =? 0) in
        let opcode := Z.land (Z.shiftr code 11) 0x0F in
        let flags := Z.land (Z.shiftr code 4) 0x7F in
        let rcode := Z.land code 0x0F in
        b <- getitem data (HEADER_STRUCT_SIZE + 44) ;;
        let numnames := int_of_byte b in
        if numnames >? 0 then
          ret <- decode_names data (Z.to_nat numnames)
                   (HEADER_STRUCT_SIZE + 45) [] ;;
          Ok (trn_id, Some ret)
        else Ok (trn_id, None)
    | _ => Raise ValueError
    end.


(** ** The exchange: the socket, the clock and the poll loop

    The environment is a script: one [round] per turn of the
    [while True] loop, giving what [time.time()] reads at its top, what
    [select.select] answers and, when the socket is ready, what
    [recvfrom] delivers.  The clock's type is left open: the loop only
    adds the timeout once and compares. *)

Inductive recv_outcome : Type :=
| Datagram (data : bytes)
| RecvError (errno : Z).       (* recvfrom raises OSError *)

Inductive select_outcome : Type :=
| NotReady                     (* the ready list is empty *)
| Ready (r : recv_outcome)
| SelectError (errno : Z).     (* select raises select.error *)

Inductive outcome (A : Type) : Type :=
| Returned (a : A)
| Raised (e : exn)
| Running.                     (* the script ended with the loop still going *)
Arguments Returned {A} a.
Arguments Raised {A} e.
Arguments Running {A}.

(** What one pass through the [try] body does to the loop. *)
Inductive step : Type :=
| Return (ret : option (list (str * Z)))
| Continue
| Throw (e : exn).

Definition EINTR : Z := 4.
Definition EAGAIN : Z := 11.

(** [type(ex) is tuple], for a caught exception object [ex]. *)
Definition type_is_tuple (ex : exn) : bool := false.

(** The [except select.error as ex] clause.  Its inner test names
    [errno], which the module never imports. *)
Definition except_select_error (s : step) : step :=
  match s with
  | Throw (OSError errno) =>
      let ex := OSError errno in
      if type_is_tuple ex then Throw NameError else Throw ex
  | _ => s
  end.

Record sendto_call : Type := mk_sendto
  { sent_data : bytes; sent_ip : str; sent_port : Z }.

Record NetBIOS : Type := mk_NetBIOS
  { broadcast : bool;
    sock : bool }.             (* [self.sock] is a socket (true) or None *)

Section Exchange.

Variable time : Type.
Variable time_add : time -> time -> time.
Variable time_geb : time -> time -> bool.

Record round : Type := mk_round
  { clock : time; wait : select_outcome }.

Record environment : Type := mk_environment
  { randint : Z;                 (* random.randint(1, 0xFFFF) *)
    sendto_error : option Z;     (* errno when sock.sendto raises *)
    now : time;                  (* time.time() on entering the poll *)
    script : list round }.

Definition poll_body (wait_trn_id : Z) (end_time : time) (r : round)
  : step :=
  let _current := clock r in
  if time_geb _current end_time then Return None
  else match wait r with
       | SelectError e => Throw (OSError e)
       | NotReady => Return None
       | Ready (RecvError e) => Throw (OSError e)
       | Ready (Datagram data) =>
           if len data =? 0 then Throw NameError (* NotConnectedError *)
           else match _decode_ip_query_packet data with
                | Raise e => Throw e
                | Ok (trn_id, ret) =>
                    if trn_id =? wait_trn_id then Return ret else Continue
                end
       end.

Fixpoint poll_loop (wait_trn_id : Z) (end_time : time)
  (rounds : list round) : outcome (option (list (str * Z))) :=
  match rounds with
  | [] => Running
  | r :: rest =>
      match except_select_error (poll_body wait_trn_id end_time r) with
      | Return ret => Returned ret
      | Throw e => Raised e
      | Continue => poll_loop wait_trn_id end_time rest
      end
  end.

Definition _poll_for_query_packet (wait_trn_id : Z) (timeout : time)
  (env : environment) : outcome (option (list (str * Z))) :=
  let end_time := time_add (now env) timeout in
  poll_loop wait_trn_id end_time (script env).

Definition _write (self : NetBIOS) (data : bytes) (ip : str) (port : Z)
  (env : environment) : list sendto_call * result unit :=
  if sock self then
    ([mk_sendto data ip port],
     match sendto_error env with
     | None => Ok tt
     | Some e => Raise (OSError e)
     end)
  else ([], Raise AssertionError).

(** [if ret:] on what the poll returned: [None] and [[]] are false. *)
Definition truthy (ret : option (list (str * Z))) : bool :=
  match ret with
  | Some (_ :: _) => true
  | _ => false
  end.

Definition records_of (ret : option (list (str * Z))) : list (str * Z) :=
  match ret with
  | Some l => l
  | None => []
  end.

(** Returns the [sendto] calls made, and the method's outcome. *)
Definition query_ip_for_name (self : NetBIOS) (ip : str) (port : Z)
  (timeout : time) (env : environment)
  : list sendto_call * outcome (option (list str)) :=
  if negb (sock self) then ([], Raised AssertionError)
  else
    let trn_id := randint env in
    match _prepare_net_name_query trn_id false with
    | Raise e => ([], Raised e)
    | Ok data =>
        match _write self data ip port env with
        | (calls, Raise e) => (calls, Raised e)
        | (calls, Ok _) =>
            (calls,
             match _poll_for_query_packet trn_id timeout env with
             | Returned ret =>
                 if truthy ret then
                   Returned
                     (Some (map (fun s => fst s)
                              (filter (fun s => snd s =? TYPE_SERVER)
                                 (records_of ret))))
                 else Returned None
             | Raised e => Raised e
             | Running => Running
             end)
        end
    end.

End Exchange.

Arguments clock {time} r.
Arguments wait {time} r.
Arguments mk_round {time} clock wait.
Arguments mk_environment {time} randint sendto_error now script.
Arguments randint {time} e.
Arguments sendto_error {time} e.
Arguments now {time} e.
Arguments script {time} e.
Arguments poll_body {time} time_geb wait_trn_id end_time r.
Arguments poll_loop {time} time_geb wait_trn_id end_time rounds.
Arguments _poll_for_query_packet {time} time_add time_geb wait_trn_id timeout env.
Arguments _write {time} self data ip port env.
Arguments query_ip_for_name {time} time_add time_geb self ip port timeout env.

(** ** Rounds of the exchange, as the statements below name them *)

(** The round delivers a datagram that decodes, with a transaction id
    other than the awaited one. *)
Definition mismatched {time} (wait_trn_id : Z) (r : round time) : Prop :=
  exists data trn_id ret,
    wait r = Ready (Datagram data) /\
    _decode_ip_query_packet data = Ok (trn_id, ret) /\
    trn_id <> wait_trn_id.

(** The round is before the deadline and delivers a mismatched reply. *)
Definition skipped {time} (time_geb : time -> time -> bool)
  (wait_trn_id : Z) (end_time : time) (r : round time) : Prop :=
  time_geb (clock r) end_time = false /\ mismatched wait_trn_id r.

Definition with_script {time} (env : environment time)
  (rounds : list (round time)) : environment time :=
  mk_environment (randint env) (sendto_error env) (now env) rounds.

(** The names of the records whose type is TYPE_SERVER, in order. *)
Definition server_names (recs : list (str * Z)) : list str :=
  map fst (filter (fun s => snd s =? TYPE_SERVER) recs).


(** ** The name encoder, as the statements below read it *)

(** The value of the local [encoded_name]: the length character and the
    first-level encoding of the padded 16-character field. *)
Definition encoded_name_of (name : str) (type : Z) : result str :=
  name <- padded_name name type ;;
  l <- chr (len name * 2) ;;
  enc <- re_sub_dot _do_first_level_encoding name ;;
  Ok (l :: enc).

Definition ascii_str (s : str) : Prop := Forall (fun c => (c < 128)%N) s.

(** Code points that the letter table can encode: [c >> 4] is below 26. *)
Definition in_table (s : str) : Prop := Forall (fun c => (c < 416)%N) s.

(** ** Wire constants the statements below refer to *)

(** The encoded wildcard name: the length byte 0x20, "CK" for the
    asterisk (0x2A), "AA" for each of the 15 NUL bytes, and the NUL that
    ends the (empty) scope. *)
Definition wildcard_name : bytes :=
  [x20; x43; x4b] ++ repeat x41 30 ++ [x00].

(** The question type NBSTAT (0x0021) and class IN (0x0001). *)
Definition question_tail : bytes := [x00; x21; x00; x01].

Definition query_header (hi lo : byte) (is_broadcast : bool) : bytes :=
  [hi; lo; x00; (if is_broadcast then x10 else x00);
   x00; x01; x00; x00; x00; x00; x00; x00].

(** ** The reply layout, as the statements below read it *)

(** The code points of a byte string of ASCII bytes. *)
Definition chars_of_bytes (b : bytes) : str := map Byte.to_N b.

Definition ascii_bytes (b : bytes) : Prop :=
  Forall (fun x => int_of_byte x < 128) b.

(** Some byte of [b] is 0x80 or above. *)
Definition high_byte (b : bytes) : Prop :=
  Exists (fun x => 128 <= int_of_byte x) b.

Definition trn_id_of (data : bytes) : Z :=
  int_of_byte (nth 0 data x00) * 256 + int_of_byte (nth 1 data x00).

Definition numnames_of (data : bytes) : Z := int_of_byte (nth 56 data x00).

Definition entry_offset (i : nat) : Z := 57 + 18 * Z.of_nat i.

Definition entry_name (data : bytes) (i : nat) : bytes :=
  slice data (entry_offset i) (entry_offset i + 15).

Definition entry_type (data : bytes) (i : nat) : Z :=
  int_of_byte (nth (Z.to_nat (entry_offset i + 15)) data x00).

(** Entry [i] as the decoder reads it. *)
Definition record_at (data : bytes) (i : nat) : str * Z :=
  (chars_of_bytes (strip (entry_name data i)), entry_type data i).

(** The specification's reading of a name: trailing space and NUL bytes
    removed, nothing else. *)
Definition is_padding (b : byte) : bool :=
  (int_of_byte b =? 32) || (int_of_byte b =? 0).

Definition spec_rtrim_padding (b : bytes) : bytes :=
  rev (dropwhile is_padding (rev b)).

Definition spec_record_at (data : bytes) (i : nat) : str * Z :=
  (chars_of_bytes (spec_rtrim_padding (entry_name data i)),
   entry_type data i).

(** Sample replies: a response header with transaction id 0x1234, the 44
    bytes before the name count, the count, and the entries. *)
Definition reply_header : bytes :=
  [x12; x34; x84; x00; x00; x00; x00; x01; x00; x00; x00; x00].

Definition reply (numnames : byte) (entries : bytes) : bytes :=
  reply_header ++ repeat x00 44 ++ [numnames] ++ entries.

Definition reply_workstation : bytes :=
  reply x01 (blit "WORKSTATION    " ++ [x20; x04; x00]).

Definition reply_nul_padded : bytes :=
  reply x01 ([x41] ++ repeat x00 14 ++ [x20; x04; x00]).

Definition reply_lead_space : bytes :=
  reply x01 (blit " A             " ++ [x20; x04; x00]).

Definition reply_high_byte : bytes :=
  reply x01 ([xe9] ++ repeat x20 14 ++ [x20; x04; x00]).

(** What the specification says the decoder returns on a reply long
    enough for its count. *)
Definition spec_decode (data : bytes)
  : result (Z * option (list (str * Z))) :=
  Ok (trn_id_of data,
      if numnames_of data =? 0 then None
      else Some (map (spec_record_at data)
                   (seq 0 (Z.to_nat (numnames_of data))))).

Definition reply_no_names : bytes := reply x00 [].

(** One entry declared, cut after its 15 name bytes. *)
Definition reply_cut_type : bytes :=
  reply x01 (blit "WORKSTATION    ").

(** One entry whose two flag bytes are cut off. *)
Definition reply_cut_flags : bytes :=
  reply x01 (blit "WORKSTATION    " ++ [x20]).

(** A sample exchange on an integer clock: at time 1 a reply for another
    transaction, at time 2 the awaited one. *)
Definition reply_other_id : bytes :=
  [xab; xcd] ++ skipn 2 reply_workstation.

(** Another host's broadcast query, transaction id 0xABCD: 50 bytes. *)
Definition query_other_id : bytes :=
  query_header xab xcd true ++ wildcard_name ++ question_tail.

Definition sample_rounds : list (round Z) :=
  [mk_round 1 (Ready (Datagram reply_other_id));
   mk_round 2 (Ready (Datagram reply_workstation))].

Definition sample_env (rounds : list (round Z)) : environment Z :=
  mk_environment 0x1234 None 0 rounds.

(** ** close, and the readings used by the further properties *)

(** [close]: [self.sock.close()] then [self.sock = None].  [close_error]
    is the errno when the socket's own [close] raises; on an instance
    already closed [self.sock] is None, which has no [close]. *)
Definition close (self : NetBIOS) (close_error : option Z)
  : result NetBIOS :=
  if sock self then
    match close_error with
    | Some e => Raise (OSError e)
    | None => Ok (mk_NetBIOS (broadcast self) false)
    end
  else Raise AttributeError.

(** What the substitution makes of one character: a newline stays, any
    other becomes the letters for its high and low nibble. *)
Definition first_level (c : char) : str :=
  if (c =? 10)%N then [c] else [(65 + c / 16)%N; (65 + c mod 16)%N].

(** The 16-character field of a name other than the wildcard. *)
Definition name_field (name : str) (type : Z) : str :=
  ljust (firstn 15 name) 15 ++ [Z.to_N type].

(** ASCII whitespace, as a code point. *)
Definition space_char (c : char) : bool :=
  ((c =? 32) || ((9 <=? c) && (c <=? 13)))%N.

(** A decoded name: at most 15 ASCII characters, no whitespace at either
    end. *)
Definition trimmed_name (s : str) : Prop :=
  len s <= 15 /\ ascii_str s /\
  (forall c rest, s = c :: rest -> space_char c = false) /\
  (forall front c, s = front ++ [c] -> space_char c = false).

(** A name-table entry of a reply as it lies on the wire: the name
    padded with spaces to 15 bytes, the type byte, two flag bytes. *)
Record name_entry : Type := mk_entry
  { e_name : bytes; e_type : byte; e_flags1 : byte; e_flags2 : byte }.

Definition entry_bytes (e : name_entry) : bytes :=
  e_name e ++ repeat x20 (15 - List.length (e_name e))
    ++ [e_type e; e_flags1 e; e_flags2 e].

(** The record the decoder is to make of an entry. *)
Definition entry_record (e : name_entry) : str * Z :=
  (chars_of_bytes (e_name e), int_of_byte (e_type e)).

(** A name that padding and stripping give back: at most 15 ASCII bytes,
    no whitespace at either end. *)
Definition trimmed_bytes (b : bytes) : Prop :=
  len b <= 15 /\ ascii_bytes b /\
  (forall x rest, b = x :: rest -> is_space x = false) /\
  (forall front x, b = front ++ [x] -> is_space x = false).

(** ** Bytes and 16-bit words *)

Lemma int_of_byte_range (b : byte) : 0 <= int_of_byte b <= 255.
Proof.
  unfold int_of_byte. pose proof (Byte.to_N_bounded b). lia.
Qed.

Lemma byte_of_int_Some (v : Z) :
  0 <= v <= 255 -> exists b, byte_of_int v = Some b /\ int_of_byte b = v.
Proof.
  intros Hv. unfold byte_of_int, int_of_byte.
  destruct (v <? 0) eqn:E; [apply Z.ltb_lt in E; lia|].
  destruct (Byte.of_N (Z.to_N v)) as [b|] eqn:Eb.
  - exists b. split; [reflexivity|].
    apply Byte.to_of_N in Eb. rewrite Eb. lia.
  - apply Byte.of_N_None_iff in Eb. lia.
Qed.

Lemma byte_of_int_of_byte (b : byte) : byte_of_int (int_of_byte b) = Some b.
Proof.
  unfold byte_of_int, int_of_byte.
  destruct (Z.of_N (Byte.to_N b) <? 0) eqn:E; [apply Z.ltb_lt in E; lia|].
  rewrite N2Z.id. apply Byte.of_to_N.
Qed.

(** Big-endian reading of two bytes, in arithmetic. *)
Lemma word_of_bytes (hi lo : Z) :
  0 <= hi -> 0 <= lo < 256 ->
  Z.lor (Z.shiftl hi 8) lo = hi * 256 + lo.
Proof.
  intros Hhi Hlo.
  rewrite Z.shiftl_mul_pow2 by lia. change (2 ^ 8) with 256.
  rewrite <- Z.lxor_lor, <- Z.add_nocarry_lxor; try reflexivity.
  all: apply Z.bits_inj'; intros n Hn; rewrite Z.land_spec, Z.bits_0.
  all: destruct (Z.ltb_spec n 8).
  all: try (replace (hi * 256) with (hi * 2 ^ 8) by reflexivity;
            rewrite Z.mul_pow2_bits_low by lia; reflexivity).
  all: replace (Z.testbit lo n) with false;
       [apply andb_false_r|
        symmetry; apply (Z.bits_above_log2 lo n); try lia;
        destruct (Z.eq_dec lo 0) as [->|]; [simpl; lia|];
        apply Z.log2_lt_pow2; try lia;
        apply Z.lt_le_trans with (2 ^ 8); [simpl; lia|];
        apply Z.pow_le_mono_r; lia].
Qed.

Lemma pack_H_bytes (v : Z) :
  0 <= v <= 0xFFFF ->
  exists hi lo, pack_H v = Ok [hi; lo] /\
                int_of_byte hi = v / 256 /\ int_of_byte lo = v mod 256.
Proof.
  intros Hv. unfold pack_H.
  replace ((0 <=? v) && (v <=? 0xFFFF)) with true
    by (symmetry; apply andb_true_iff; split; apply Z.leb_le; lia).
  rewrite Z.shiftr_div_pow2 by lia. change (2 ^ 8) with 256.
  change 0xFF with (Z.ones 8). rewrite Z.land_ones by lia.
  change (2 ^ 8) with 256.
  destruct (byte_of_int_Some (v / 256)) as (hi & Ehi & Hhi).
  { split; [apply Z.div_pos; lia|].
    apply Z.lt_succ_r. apply Z.div_lt_upper_bound; lia. }
  destruct (byte_of_int_Some (v mod 256)) as (lo & Elo & Hlo).
  { pose proof (Z.mod_pos_bound v 256). lia. }
  exists hi, lo. rewrite Ehi, Elo. auto.
Qed.

Lemma unpack_word (hi lo : byte) :
  Z.lor (Z.shiftl (int_of_byte hi) 8) (int_of_byte lo)
  = int_of_byte hi * 256 + int_of_byte lo.
Proof.
  pose proof (int_of_byte_range hi). pose proof (int_of_byte_range lo).
  apply word_of_bytes; lia.
Qed.

Lemma HEADER_STRUCT_SIZE_eq : HEADER_STRUCT_SIZE = 12.
Proof. reflexivity. Qed.

Lemma len_nonneg {A} (l : list A) : 0 <= len l.
Proof. unfold len. lia. Qed.

Lemma getitem_in_range {A} (l : list A) (i : Z) (d : A) :
  0 <= i < len l -> getitem l i = Ok (nth (Z.to_nat i) l d).
Proof.
  intros Hi. unfold getitem, len in *.
  destruct (i <? 0) eqn:E; [apply Z.ltb_lt in E; lia|]. rewrite E.
  destruct (nth_error l (Z.to_nat i)) as [x|] eqn:En.
  - f_equal. symmetry. apply nth_error_nth. assumption.
  - apply nth_error_None in En. lia.
Qed.

Lemma getitem_past_end {A} (l : list A) (i : Z) :
  0 <= i -> len l <= i -> getitem l i = Raise IndexError.
Proof.
  intros H0 Hi. unfold getitem, len in *.
  destruct (i <? 0) eqn:E; [apply Z.ltb_lt in E; lia|]. rewrite E.
  destruct (nth_error l (Z.to_nat i)) as [x|] eqn:En; [|reflexivity].
  assert (nth_error l (Z.to_nat i) <> None) as Hn by congruence.
  apply nth_error_Some in Hn. lia.
Qed.

Lemma len_app {A} (a b : list A) : len (a ++ b) = len a + len b.
Proof. unfold len. rewrite length_app. lia. Qed.

Lemma chr_ok (i : Z) : 0 <= i < 0x110000 -> chr i = Ok (Z.to_N i).
Proof.
  intros Hi. unfold chr.
  replace ((i <? -2147483648) || (2147483647 <? i)) with false.
  - replace ((0 <=? i) && (i <? 0x110000)) with true; [reflexivity|].
    symmetry. apply andb_true_iff.
    split; [apply Z.leb_le|apply Z.ltb_lt]; lia.
  - symmetry. apply orb_false_iff. split; apply Z.ltb_ge; lia.
Qed.

(** ** The name encoder *)

Lemma encode_name_split (name : str) (type : Z) (scope : option str) :
  _encode_name name type scope
  = (encoded_name <- encoded_name_of name type ;;
     if truthy_scope scope then
       labels <- string_split (scope_text scope) (lit ".") ;;
       encoded_scope <- encode_scope_labels labels [] ;;
       bytes_ascii (encoded_name ++ encoded_scope ++ [0%N])
     else bytes_ascii (encoded_name ++ [0%N])).
Proof.
  unfold _encode_name, encoded_name_of.
  destruct (padded_name name type) as [p|]; cbn [bind]; [|reflexivity].
  destruct (chr (len p * 2)) as [l|]; cbn [bind]; [|reflexivity].
  destruct (re_sub_dot _do_first_level_encoding p); reflexivity.
Qed.

Lemma bytes_ascii_out (s : str) (out : bytes) :
  bytes_ascii s = Ok out -> ascii_bytes out.
Proof.
  revert out. induction s as [|c s IH]; intros out E; cbn [bytes_ascii] in E.
  - injection E as <-. constructor.
  - destruct (c <? 128)%N eqn:Ec; [|discriminate].
    destruct (Byte.of_N c) as [b|] eqn:Eb; [|discriminate].
    destruct (bytes_ascii s) as [t|]; cbn [bind] in E; [|discriminate].
    injection E as <-. constructor; [|apply IH; reflexivity].
    apply Byte.to_of_N in Eb. apply N.ltb_lt in Ec.
    unfold int_of_byte. lia.
Qed.

Lemma bytes_ascii_total (s : str) :
  ascii_str s -> exists out, bytes_ascii s = Ok out.
Proof.
  induction 1 as [|c s Hc Hs [t Et]]; [eexists; reflexivity|].
  cbn [bytes_ascii].
  replace (c <? 128)%N with true by (symmetry; apply N.ltb_lt; assumption).
  destruct (Byte.of_N c) as [b|] eqn:Eb.
  - rewrite Et. eexists. reflexivity.
  - apply Byte.of_N_None_iff in Eb. lia.
Qed.

Lemma ascii_uppercase_ascii : ascii_str ascii_uppercase.
Proof. unfold ascii_str. repeat constructor. Qed.

Lemma letter_in_table (i : Z) :
  0 <= i < 26 ->
  exists a, getitem ascii_uppercase i = Ok a /\ (a < 128)%N.
Proof.
  intros Hi. exists (nth (Z.to_nat i) ascii_uppercase 0%N). split.
  - apply getitem_in_range. exact Hi.
  - pose proof ascii_uppercase_ascii as Ha. unfold ascii_str in Ha.
    rewrite Forall_forall in Ha. apply Ha, nth_In.
    change (List.length ascii_uppercase) with 26%nat. lia.
Qed.

Lemma letter_past_table (i : Z) :
  26 <= i -> getitem ascii_uppercase i = Raise IndexError.
Proof.
  intros Hi. apply getitem_past_end; [lia|exact Hi].
Qed.

Lemma first_level_cases (c : char) :
  ((c < 416)%N /\
   exists a b, _do_first_level_encoding c = Ok [a; b] /\
               (a < 128)%N /\ (b < 128)%N)
  \/
  ((416 <= c)%N /\ _do_first_level_encoding c = Raise IndexError).
Proof.
  unfold _do_first_level_encoding, ord.
  rewrite Z.shiftr_div_pow2 by lia. change (2 ^ 4) with 16.
  change 0x0f with (Z.ones 4). rewrite Z.land_ones by lia.
  change (2 ^ 4) with 16.
  destruct (N.lt_ge_cases c 416) as [Hc|Hc].
  - left. split; [exact Hc|].
    destruct (letter_in_table (Z.of_N c / 16)) as (a & Ea & Ha).
    { split; [apply Z.div_pos; lia|].
      apply Z.div_lt_upper_bound; lia. }
    destruct (letter_in_table (Z.of_N c mod 16)) as (b & Eb & Hb).
    { pose proof (Z.mod_pos_bound (Z.of_N c) 16). lia. }
    exists a, b. rewrite Ea, Eb. auto.
  - right. split; [exact Hc|].
    rewrite letter_past_table; [reflexivity|].
    apply Z.div_le_lower_bound; lia.
Qed.

(** The substitution returns ASCII text whenever it returns, returns on
    every string within the table, and raises IndexError otherwise. *)
Lemma re_sub_dot_cases (s : str) :
  (in_table s /\
   exists enc, re_sub_dot _do_first_level_encoding s = Ok enc /\ ascii_str enc)
  \/
  (Exists (fun c => (416 <= c)%N) s /\
   re_sub_dot _do_first_level_encoding s = Raise IndexError).
Proof.
  unfold in_table, ascii_str.
  induction s as [|c s IH].
  - left. split; [constructor|]. exists []. split; [reflexivity|constructor].
  - cbn [re_sub_dot]. destruct (c =? 10)%N eqn:Ec.
    + apply N.eqb_eq in Ec. subst c. cbn [bind].
      destruct IH as [(Hs & enc & E & Henc)|(Hs & E)]; rewrite E; cbn [bind].
      * left. split; [constructor; [lia|assumption]|].
        exists (10%N :: enc). split; [reflexivity|].
        constructor; [lia|assumption].
      * right. split; [apply Exists_cons_tl; assumption|reflexivity].
    + destruct (first_level_cases c) as [(Hc & a & b & Ef & Ha & Hb)|(Hc & Ef)];
        rewrite Ef; cbn [bind].
      * destruct IH as [(Hs & enc & E & Henc)|(Hs & E)]; rewrite E; cbn [bind].
        -- left. split; [constructor; assumption|].
           exists (a :: b :: enc). split; [reflexivity|].
           repeat constructor; assumption.
        -- right. split; [apply Exists_cons_tl; assumption|reflexivity].
      * right. split; [apply Exists_cons_hd; assumption|reflexivity].
Qed.

(** The padded field is the first 15 characters of the name followed by
    padding and the type character, 16 characters in all. *)
Lemma padded_name_shape (name : str) (type : Z) :
  0 <= type < 0x110000 ->
  exists pad,
    padded_name name type = Ok (firstn 15 name ++ pad) /\
    len (firstn 15 name ++ pad) = 16 /\
    Forall (fun c => c = 0%N \/ c = 32%N \/ c = Z.to_N type) pad.
Proof.
  intros Ht. unfold padded_name, str_eqb.
  destruct (list_eq_dec N.eq_dec name (lit "*")) as [->|Hne].
  - exists (repeat 0%N 15). split; [reflexivity|]. split; [reflexivity|].
    apply Forall_forall. intros c Hc. apply repeat_spec in Hc. auto.
  - rewrite (chr_ok type Ht). cbn [bind].
    destruct (len name >? 15) eqn:El.
    + apply Z.gtb_lt in El. exists [Z.to_N type]. split; [reflexivity|].
      split; [|constructor; [auto|constructor]].
      rewrite len_app. unfold len in *. rewrite length_firstn.
      cbn [List.length]. lia.
    + assert (Hl : len name <= 15).
      { destruct (Z.gtb_spec (len name) 15); [discriminate|lia]. }
      exists (repeat 32%N (Z.to_nat (15 - len name)) ++ [Z.to_N type]).
      unfold len in Hl. rewrite firstn_all2 by lia.
      unfold ljust. rewrite <- app_assoc. split; [reflexivity|]. split.
      * rewrite !len_app. unfold len. rewrite repeat_length.
        cbn [List.length]. lia.
      * apply Forall_app. split; [|constructor; [auto|constructor]].
        apply Forall_forall. intros c Hc. apply repeat_spec in Hc. auto.
Qed.

Lemma encoded_name_of_cases (name : str) (type : Z) :
  0 <= type < 0x110000 ->
  (in_table (firstn 15 name) -> type < 416 ->
   exists enc, encoded_name_of name type = Ok (32%N :: enc) /\ ascii_str enc)
  /\
  (Exists (fun c => (416 <= c)%N) (firstn 15 name) ->
   encoded_name_of name type = Raise IndexError).
Proof.
  intros Ht.
  destruct (padded_name_shape name type Ht) as (pad & Ep & Hlen & Hpad).
  unfold encoded_name_of. rewrite Ep. cbn [bind]. rewrite Hlen.
  change (chr (16 * 2)) with (@Ok char 32%N). cbn [bind].
  destruct (re_sub_dot_cases (firstn 15 name ++ pad))
    as [(Hin & enc & E & Henc)|(Hex & E)]; rewrite E; cbn [bind].
  - split.
    + intros _ _. exists enc. auto.
    + intros Hex. exfalso. unfold in_table in Hin.
      apply Forall_app in Hin. destruct Hin as [Hin _].
      rewrite Forall_forall in Hin. apply Exists_exists in Hex.
      destruct Hex as (c & Hc & Hge). specialize (Hin c Hc). lia.
  - split; [|reflexivity].
    intros Hin Hty. exfalso. apply Exists_app in Hex.
    destruct Hex as [Hex|Hex]; apply Exists_exists in Hex;
      destruct Hex as (c & Hc & Hge).
    + unfold in_table in Hin. rewrite Forall_forall in Hin.
      specialize (Hin c Hc). lia.
    + rewrite Forall_forall in Hpad.
      destruct (Hpad c Hc) as [E1 | [E1 | E1]]; subst c; lia.
Qed.

(** With a scope that is not empty the encoder never returns: once the
    name field is encoded, looking up [string.split] raises. *)
Lemma encode_name_scope (name : str) (type : Z) (c : char) (s : str) :
  (exists e, _encode_name name type (Some (c :: s)) = Raise e) /\
  (forall field,
      encoded_name_of name type = Ok field ->
      _encode_name name type (Some (c :: s)) = Raise AttributeError).
Proof.
  rewrite encode_name_split. cbn [truthy_scope scope_text].
  destruct (encoded_name_of name type) as [field|e]; cbn [bind].
  - split; [exists AttributeError; reflexivity|]. intros; reflexivity.
  - split; [exists e; reflexivity|]. intros field E. discriminate E.
Qed.

(** C4 (the code's behaviour): for every name, type and scope that is not
    empty the encoder raises instead of returning the name field followed
    by the length-prefixed labels; where the name field can be encoded
    the exception is AttributeError, from [string.split]. *)
Theorem C4_scope_raises (name : str) (type : Z) (c : char) (s : str) :
  (exists e, _encode_name name type (Some (c :: s)) = Raise e) /\
  (forall field,
      encoded_name_of name type = Ok field ->
      _encode_name name type (Some (c :: s)) = Raise AttributeError).
Proof. exact (encode_name_scope name type c s). Qed.

Lemma C4_scope_raises_witness :
  _encode_name (lit "WORKGROUP") 0x20 (Some (lit "example.com"))
  = Raise AttributeError.
Proof.
  refine (proj2 (C4_scope_raises (lit "WORKGROUP") 0x20 101%N
                   (lit "xample.com")) _ _).
  reflexivity.
Defined.

(** C8 (as amended): whenever the encoder returns, its output is pure
    7-bit ASCII; with no scope it returns for every name whose first 15
    characters have code points below 416 and every type below 416, so
    for every ASCII name and type byte, and also for names with
    non-ASCII characters below 416, whatever follows the fifteenth
    character; with or without a scope it raises IndexError when one of
    the first 15 characters of the name has a code point of 416 or more
    (the type being a code point). *)
Theorem C8_encode_ascii (name : str) (type : Z) (scope : option str) :
  (forall out, _encode_name name type scope = Ok out -> ascii_bytes out)
  /\
  (in_table (firstn 15 name) -> 0 <= type < 416 ->
   truthy_scope scope = false ->
   exists out, _encode_name name type scope = Ok out /\ ascii_bytes out)
  /\
  (ascii_str name -> 0 <= type <= 255 -> truthy_scope scope = false ->
   exists out, _encode_name name type scope = Ok out /\ ascii_bytes out)
  /\
  (Exists (fun c => (416 <= c)%N) (firstn 15 name) ->
   0 <= type < 0x110000 ->
   _encode_name name type scope = Raise IndexError).
Proof.
  assert (Hout : forall out,
             _encode_name name type scope = Ok out -> ascii_bytes out).
  { intros out. rewrite encode_name_split.
    destruct (encoded_name_of name type) as [field|]; cbn [bind];
      [|discriminate].
    destruct (truthy_scope scope); [discriminate|]. apply bytes_ascii_out. }
  assert (Hret : in_table (firstn 15 name) -> 0 <= type < 416 ->
                 truthy_scope scope = false ->
                 exists out, _encode_name name type scope = Ok out /\
                             ascii_bytes out).
  { intros Hin Hty Hsc.
    destruct (encoded_name_of_cases name type) as [Hok _]; [lia|].
    destruct (Hok Hin) as (enc & E & Henc); [lia|].
    destruct (bytes_ascii_total ((32%N :: enc) ++ [0%N])) as [out Eo].
    { unfold ascii_str in *. apply Forall_app. split.
      - constructor; [lia|assumption].
      - repeat constructor. }
    exists out. split; [|apply (bytes_ascii_out _ _ Eo)].
    rewrite encode_name_split, E, Hsc. exact Eo. }
  split; [exact Hout|]. split; [exact Hret|]. split.
  - intros Ha Hty Hsc. apply Hret; [|lia|exact Hsc].
    unfold in_table, ascii_str in *.
    rewrite <- (firstn_skipn 15 name) in Ha. apply Forall_app in Ha.
    destruct Ha as [Ha _]. eapply Forall_impl; [|exact Ha].
    intros c Hc. cbn beta in Hc. lia.
  - intros Hex Hty.
    destruct (encoded_name_of_cases name type Hty) as [_ Hraise].
    rewrite encode_name_split, (Hraise Hex). reflexivity.
Qed.

Lemma C8_encode_ascii_witness :
  (exists out, _encode_name (lit "FILESERVER") 0x20 None = Ok out /\
               ascii_bytes out)
  /\ _encode_name [937%N] 0x20 None = Raise IndexError.
Proof.
  split.
  - refine (proj1 (proj2 (proj2
              (C8_encode_ascii (lit "FILESERVER") 0x20 None))) _ _ _).
    + unfold ascii_str. repeat constructor.
    + lia.
    + reflexivity.
  - refine (proj2 (proj2 (proj2 (C8_encode_ascii [937%N] 0x20 None))) _ _).
    + constructor. vm_compute. discriminate.
    + lia.
Defined.

(** C8 as stated fails: the name "é" (U+00E9) is not ASCII, and the
    encoder returns for it, the character encoded as the letters "OJ". *)
Lemma C8_counterexample :
  ~ ascii_str [233%N] /\
  _encode_name [233%N] 0x20 None
  = Ok ([x20] ++ blit "OJ" ++ List.concat (repeat (blit "CA") 15) ++ [x00]).
Proof.
  split; [|reflexivity].
  intros H. inversion H as [|c s Hc Hs]. lia.
Qed.

(** ** The query builder *)

Lemma encode_wildcard : _encode_name (lit "*") 0 None = Ok wildcard_name.
Proof. reflexivity. Qed.

Lemma prepare_layout (t : Z) (b : bool) :
  0 <= t <= 0xFFFF ->
  exists hi lo,
    int_of_byte hi = t / 256 /\ int_of_byte lo = t mod 256 /\
    _prepare_net_name_query t b
    = Ok (query_header hi lo b ++ wildcard_name ++ question_tail).
Proof.
  intros Ht. destruct (pack_H_bytes t Ht) as (hi & lo & E & Hhi & Hlo).
  exists hi, lo. split; [assumption|]. split; [assumption|].
  unfold _prepare_net_name_query, HEADER_STRUCT_FORMAT.
  cbn [pack]. rewrite E. destruct b; reflexivity.
Qed.

(** C1 (as amended): for every 16-bit transaction id [t] and boolean [b]
    the query builder returns the 12-byte header packing
    (t, flags, 1, 0, 0, 0) as big-endian 16-bit words, flags being 0x0010
    when [b] and 0x0000 otherwise, followed by the encoded wildcard name
    (length byte 0x20, 32 encoded characters, the NUL terminator) and the
    bytes 00 21 00 01; for t = 0x1234 with broadcast the header is
    12 34 00 10 00 01 00 00 00 00 00 00. *)
Theorem C1_query_layout (t : Z) (b : bool) :
  0 <= t <= 0xFFFF ->
  (exists hi lo,
     int_of_byte hi = t / 256 /\ int_of_byte lo = t mod 256 /\
     _prepare_net_name_query t b
     = Ok (query_header hi lo b ++ wildcard_name ++ question_tail))
  /\ _encode_name (lit "*") 0 None = Ok wildcard_name
  /\ _prepare_net_name_query 0x1234 true
     = Ok ([x12; x34; x00; x10; x00; x01; x00; x00; x00; x00; x00; x00]
           ++ [x20] ++ [x43; x4b] ++ repeat x41 30 ++ [x00]
           ++ [x00; x21; x00; x01]).
Proof.
  intros Ht. split; [apply prepare_layout; assumption|].
  split; reflexivity.
Qed.

Lemma C1_query_layout_witness :
  0 <= 0x1234 <= 0xFFFF /\
  _prepare_net_name_query 0x1234 true
  = Ok ([x12; x34; x00; x10; x00; x01; x00; x00; x00; x00; x00; x00]
        ++ [x20] ++ [x43; x4b] ++ repeat x41 30 ++ [x00]
        ++ [x00; x21; x00; x01]).
Proof.
  split; [lia|].
  apply (C1_query_layout 0x1234 true). lia.
Defined.

(** C1 as stated fails: for t = 0x1234 with broadcast the datagram does
    not start with 34 12 00 10 00 01 00 00 00 00 00 00. *)
Lemma C1_counterexample :
  ~ exists body,
      _prepare_net_name_query 0x1234 true
      = Ok ([x34; x12; x00; x10; x00; x01; x00; x00; x00; x00; x00; x00]
            ++ body).
Proof.
  intros [body E]. vm_compute in E. discriminate E.
Qed.

Lemma prepare_unpack (t : Z) (b : bool) :
  0 <= t <= 0xFFFF ->
  exists data,
    _prepare_net_name_query t b = Ok data /\
    unpack HEADER_STRUCT_FORMAT (slice data 0 HEADER_STRUCT_SIZE)
    = Ok [t; (if b then 0x0010 else 0x0000); 1; 0; 0; 0].
Proof.
  intros Ht. destruct (prepare_layout t b Ht) as (hi & lo & Hhi & Hlo & E).
  eexists. split; [exact E|].
  assert (Hw : Z.lor (Z.shiftl (int_of_byte hi) 8) (int_of_byte lo) = t).
  { rewrite unpack_word, Hhi, Hlo.
    pose proof (Z.div_mod t 256). lia. }
  unfold query_header, HEADER_STRUCT_SIZE, HEADER_STRUCT_FORMAT.
  change (slice _ 0 _) with
    [hi; lo; x00; (if b then x10 else x00);
     x00; x01; x00; x00; x00; x00; x00; x00].
  unfold unpack. change (len _ =? calcsize _) with true.
  cbn [unpack_words bind]. rewrite Hw.
  destruct b; reflexivity.
Qed.

(** ** The packet decoder *)

Lemma str_ascii_ok (b : bytes) :
  ascii_bytes b -> str_ascii b = Ok (chars_of_bytes b).
Proof.
  induction 1 as [|x b Hx Hb IH]; [reflexivity|].
  cbn [str_ascii chars_of_bytes map]. unfold int_of_byte in Hx.
  replace (Byte.to_N x <? 128)%N with true by (symmetry; apply N.ltb_lt; lia).
  rewrite IH. reflexivity.
Qed.

Lemma str_ascii_raises (b : bytes) (e : exn) :
  str_ascii b = Raise e -> e = UnicodeDecodeError.
Proof.
  induction b as [|x b IH]; cbn [str_ascii]; [discriminate|].
  destruct (Byte.to_N x <? 128)%N; [|congruence].
  destruct (str_ascii b) as [t|e']; cbn [bind]; [discriminate|].
  intros [= <-]. apply IH. reflexivity.
Qed.

Lemma Forall_dropwhile {A} (P : A -> Prop) (p : A -> bool) (l : list A) :
  Forall P l -> Forall P (dropwhile p l).
Proof.
  induction 1 as [|x l Hx Hl IH]; cbn [dropwhile]; [constructor|].
  destruct (p x); [assumption|constructor; assumption].
Qed.

Lemma ascii_strip (b : bytes) : ascii_bytes b -> ascii_bytes (strip b).
Proof.
  unfold ascii_bytes, strip, rstrip, lstrip. intros Hb.
  apply Forall_rev, Forall_dropwhile, Forall_rev, Forall_dropwhile.
  assumption.
Qed.

(** The header of any buffer of 12 bytes or more unpacks, and its first
    word is the transaction id. *)
Lemma unpack_header (data : bytes) :
  12 <= len data ->
  exists code qd an ns ar,
    unpack HEADER_STRUCT_FORMAT (slice data 0 HEADER_STRUCT_SIZE)
    = Ok [trn_id_of data; code; qd; an; ns; ar].
Proof.
  intros Hlen. unfold len in Hlen.
  do 12 (destruct data as [|? data]; [cbn [List.length] in Hlen; lia|]).
  clear Hlen. unfold trn_id_of. cbn [nth].
  rewrite <- unpack_word. do 5 eexists. reflexivity.
Qed.

Lemma entry_offset_S (i : nat) : entry_offset (S i) = entry_offset i + 18.
Proof. unfold entry_offset. lia. Qed.

(** The loop, in closed form: starting at entry [i0] with [ret]
    collected, [n] more turns append the records [i0 .. i0+n-1]. *)
Lemma decode_names_ok (data : bytes) (n : nat) :
  forall (i0 : nat) (ret : list (str * Z)),
    entry_offset (i0 + n) - 2 <= len data ->
    (forall i, (i0 <= i < i0 + n)%nat -> ascii_bytes (entry_name data i)) ->
    decode_names data n (entry_offset i0) ret
    = Ok (ret ++ map (record_at data) (seq i0 n)).
Proof.
  induction n as [|n IH]; intros i0 ret Hlen Hascii.
  - cbn [decode_names seq map]. rewrite app_nil_r. reflexivity.
  - cbn [decode_names seq map].
    fold (entry_name data i0).
    rewrite (str_ascii_ok (strip (entry_name data i0)))
      by (apply ascii_strip, Hascii; lia).
    cbn [bind].
    rewrite (getitem_in_range data (entry_offset i0 + 15) x00)
      by (unfold entry_offset in *; lia).
    cbn [bind]. fold (entry_type data i0).
    rewrite <- entry_offset_S.
    rewrite IH.
    + rewrite <- app_assoc. reflexivity.
    + replace (S i0 + n)%nat with (i0 + S n)%nat by lia. assumption.
    + intros i Hi. apply Hascii. lia.
Qed.

(** Too short for the last type byte: some turn of the loop raises. *)
Lemma decode_names_short (data : bytes) (n : nat) :
  forall (i0 : nat) (ret : list (str * Z)),
    (0 < n)%nat ->
    len data < entry_offset (i0 + n) - 2 ->
    decode_names data n (entry_offset i0) ret = Raise IndexError \/
    decode_names data n (entry_offset i0) ret = Raise UnicodeDecodeError.
Proof.
  induction n as [|n IH]; intros i0 ret Hn Hlen; [lia|].
  cbn [decode_names].
  destruct (str_ascii (strip (slice data (entry_offset i0)
                                 (entry_offset i0 + 15)))) as [name|e] eqn:En.
  - cbn [bind].
    destruct (Z_lt_le_dec (entry_offset i0 + 15) (len data)) as [Hin|Hout].
    + rewrite (getitem_in_range data (entry_offset i0 + 15) x00)
        by (unfold entry_offset in *; lia).
      cbn [bind]. rewrite <- entry_offset_S.
      destruct n as [|n'].
      * unfold entry_offset in *. lia.
      * apply IH; [lia|].
        replace (S i0 + S n')%nat with (i0 + S (S n'))%nat by lia.
        assumption.
    + rewrite getitem_past_end by (unfold entry_offset in *; lia).
      left. reflexivity.
  - cbn [bind]. right. f_equal. eapply str_ascii_raises. exact En.
Qed.

(** Past the header check, the decoder is the name count and the loop. *)
Lemma decode_body (data : bytes) :
  12 <= len data ->
  _decode_ip_query_packet data
  = (b <- getitem data 56 ;;
     if int_of_byte b >? 0 then
       ret <- decode_names data (Z.to_nat (int_of_byte b)) (entry_offset 0) [] ;;
       Ok (trn_id_of data, Some ret)
     else Ok (trn_id_of data, None)).
Proof.
  intros Hlen. unfold _decode_ip_query_packet.
  destruct (unpack_header data Hlen) as (code & qd & an & ns & ar & E).
  rewrite E, HEADER_STRUCT_SIZE_eq.
  destruct (len data <? 12) eqn:El; [apply Z.ltb_lt in El; lia|].
  reflexivity.
Qed.

Lemma decode_short_header (data : bytes) :
  len data < 12 -> _decode_ip_query_packet data = Raise Exception.
Proof.
  intros Hlen. unfold _decode_ip_query_packet. rewrite HEADER_STRUCT_SIZE_eq.
  destruct (len data <? 12) eqn:El; [reflexivity|].
  apply Z.ltb_ge in El. lia.
Qed.

Lemma decode_complete (data : bytes) :
  57 <= len data ->
  _decode_ip_query_packet data
  = if numnames_of data >? 0 then
      ret <- decode_names data (Z.to_nat (numnames_of data))
               (entry_offset 0) [] ;;
      Ok (trn_id_of data, Some ret)
    else Ok (trn_id_of data, None).
Proof.
  intros Hlen. rewrite decode_body by lia.
  rewrite (getitem_in_range data 56 x00) by lia. reflexivity.
Qed.

(** A record list that the decoder returns is never empty. *)
Lemma decode_names_length (data : bytes) (n : nat) :
  forall (offset : Z) (ret out : list (str * Z)),
    decode_names data n offset ret = Ok out ->
    List.length out = (List.length ret + n)%nat.
Proof.
  induction n as [|n IH]; intros offset ret out E; cbn [decode_names] in E.
  - injection E as <-. lia.
  - destruct (str_ascii _) as [name|]; cbn [bind] in E; [|discriminate].
    destruct (getitem data (offset + 15)) as [ty|]; cbn [bind] in E;
      [|discriminate].
    apply IH in E. rewrite E, length_app. cbn [List.length]. lia.
Qed.

Lemma decode_some_nonempty (data : bytes) (t : Z) (recs : list (str * Z)) :
  _decode_ip_query_packet data = Ok (t, Some recs) -> recs <> [].
Proof.
  intros E.
  destruct (Z_lt_le_dec (len data) 12) as [Hs|Hl].
  { rewrite decode_short_header in E by assumption. discriminate. }
  rewrite decode_body in E by assumption.
  destruct (getitem data 56) as [b|]; cbn [bind] in E; [|discriminate].
  destruct (int_of_byte b >? 0) eqn:Ek; [|discriminate].
  destruct (decode_names _ _ _ _) as [ret|] eqn:Er; cbn [bind] in E;
    [|discriminate].
  injection E as _ <-.
  apply decode_names_length in Er. cbn [List.length] in Er.
  apply Z.gtb_lt in Ek. intros ->. cbn [List.length] in Er. lia.
Qed.

Lemma dropwhile_keeps {A} (p : A -> bool) (l : list A) (x : A) :
  In x l -> p x = false -> In x (dropwhile p l).
Proof.
  intros Hin Hx. induction l as [|y l IH]; [contradiction|].
  cbn [dropwhile]. destruct (p y) eqn:Ey; [|exact Hin].
  destruct Hin as [->|Hin]; [congruence|]. apply IH. exact Hin.
Qed.

Lemma strip_keeps (b : bytes) (x : byte) :
  In x b -> is_space x = false -> In x (strip b).
Proof.
  intros Hin Hx. unfold strip, rstrip, lstrip.
  apply in_rev. rewrite rev_involutive.
  apply dropwhile_keeps; [|exact Hx].
  apply -> in_rev. apply dropwhile_keeps; assumption.
Qed.

Lemma high_not_space (x : byte) : 128 <= int_of_byte x -> is_space x = false.
Proof.
  unfold int_of_byte, is_space. intros Hx.
  apply orb_false_iff. split.
  - apply N.eqb_neq. lia.
  - apply andb_false_iff. right. apply N.leb_gt. lia.
Qed.

Lemma str_ascii_high (b : bytes) :
  high_byte b -> str_ascii b = Raise UnicodeDecodeError.
Proof.
  unfold high_byte. induction b as [|x b IH]; intros Hb.
  - inversion Hb.
  - cbn [str_ascii]. destruct (Byte.to_N x <? 128)%N eqn:Ex; [|reflexivity].
    apply N.ltb_lt in Ex.
    inversion Hb as [y l Hy|y l Hl]; subst.
    + unfold int_of_byte in Hy. lia.
    + rewrite (IH Hl). reflexivity.
Qed.

Lemma strip_high (b : bytes) : high_byte b -> high_byte (strip b).
Proof.
  unfold high_byte. intros Hb. apply Exists_exists in Hb.
  destruct Hb as (x & Hin & Hx). apply Exists_exists. exists x.
  split; [|exact Hx]. apply strip_keeps; [exact Hin|].
  apply high_not_space. exact Hx.
Qed.

(** In a buffer that reaches the type byte of every entry, a name field
    with a byte above 0x7F makes the loop raise UnicodeDecodeError. *)
Lemma decode_names_high (data : bytes) (n : nat) :
  forall (i0 : nat) (ret : list (str * Z)),
    entry_offset (i0 + n) - 2 <= len data ->
    (exists i, (i0 <= i < i0 + n)%nat /\ high_byte (entry_name data i)) ->
    decode_names data n (entry_offset i0) ret = Raise UnicodeDecodeError.
Proof.
  induction n as [|n IH]; intros i0 ret Hlen (i & Hi & Hhigh); [lia|].
  cbn [decode_names]. fold (entry_name data i0).
  destruct (str_ascii (strip (entry_name data i0))) as [name|e] eqn:En.
  - cbn [bind].
    rewrite (getitem_in_range data (entry_offset i0 + 15) x00)
      by (unfold entry_offset in *; lia).
    cbn [bind]. rewrite <- entry_offset_S. apply IH.
    + replace (S i0 + n)%nat with (i0 + S n)%nat by lia. exact Hlen.
    + exists i. split; [|exact Hhigh].
      destruct (Nat.eq_dec i i0) as [->|Hne]; [|lia].
      rewrite (str_ascii_high _ (strip_high _ Hhigh)) in En. discriminate.
  - cbn [bind]. f_equal. eapply str_ascii_raises. exact En.
Qed.

(** C3 (as amended): for a reply long enough for its declared count, a
    count of 0 gives (transaction id, None); a count k > 0 whose name
    fields hold ASCII bytes only gives exactly k (name, type) pairs, read
    from the consecutive 18-byte entries starting at offset 57, the name
    being bytes [0:15] of the entry with ASCII whitespace stripped from
    both ends (NUL bytes are kept) and the type being byte [15]; and a
    count k > 0 with a byte of 0x80 or above in one of the k name fields
    makes the decoder raise UnicodeDecodeError. *)
Theorem C3_decode_records (data : bytes) :
  57 + 18 * numnames_of data <= len data ->
  (numnames_of data = 0 ->
   _decode_ip_query_packet data = Ok (trn_id_of data, None))
  /\
  (numnames_of data > 0 ->
   (forall i, (i < Z.to_nat (numnames_of data))%nat ->
              ascii_bytes (entry_name data i)) ->
   _decode_ip_query_packet data
   = Ok (trn_id_of data,
         Some (map (record_at data) (seq 0 (Z.to_nat (numnames_of data)))))
   /\ len (map (record_at data) (seq 0 (Z.to_nat (numnames_of data))))
      = numnames_of data)
  /\
  (numnames_of data > 0 ->
   (exists i, (i < Z.to_nat (numnames_of data))%nat /\
              high_byte (entry_name data i)) ->
   _decode_ip_query_packet data = Raise UnicodeDecodeError).
Proof.
  intros Hlen.
  assert (H57 : 57 <= len data).
  { unfold numnames_of in Hlen.
    pose proof (int_of_byte_range (nth 56 data x00)). lia. }
  split; [|split].
  - intros Hk. rewrite decode_complete, Hk by assumption. reflexivity.
  - intros Hk Hascii. split.
    + rewrite decode_complete by assumption.
      replace (numnames_of data >? 0) with true
        by (symmetry; apply Z.gtb_lt; lia).
      rewrite decode_names_ok.
      * reflexivity.
      * unfold entry_offset. lia.
      * intros i Hi. apply Hascii. lia.
    + unfold len. rewrite length_map, length_seq. lia.
  - intros Hk (i & Hi & Hhigh). rewrite decode_complete by assumption.
    replace (numnames_of data >? 0) with true
      by (symmetry; apply Z.gtb_lt; lia).
    rewrite decode_names_high; [reflexivity| |].
    + unfold entry_offset. lia.
    + exists i. split; [lia|exact Hhigh].
Qed.

Lemma C3_decode_records_witness :
  _decode_ip_query_packet reply_no_names = Ok (0x1234, None)
  /\
  _decode_ip_query_packet reply_workstation
  = Ok (0x1234, Some [(lit "WORKSTATION", 0x20)])
  /\
  _decode_ip_query_packet reply_high_byte = Raise UnicodeDecodeError.
Proof.
  split; [|split].
  - refine (proj1 (C3_decode_records reply_no_names _) _).
    + vm_compute. discriminate.
    + reflexivity.
  - refine (proj1 (proj1 (proj2 (C3_decode_records reply_workstation _))
                     _ _)).
    + vm_compute. discriminate.
    + reflexivity.
    + intros i Hi.
      change (Z.to_nat (numnames_of reply_workstation)) with 1%nat in Hi.
      destruct i as [|i]; [|lia].
      vm_compute. repeat constructor.
  - refine (proj2 (proj2 (C3_decode_records reply_high_byte _)) _ _).
    + vm_compute. discriminate.
    + reflexivity.
    + exists 0%nat. split; [vm_compute; lia|].
      apply Exists_cons_hd. vm_compute. discriminate.
Defined.

(** C3 as stated fails on NUL padding, on leading whitespace and on a
    name byte above 0x7F: the decoder keeps the NULs, drops the leading
    space, and raises on the high byte. *)
Lemma C3_counterexample :
  (57 + 18 * numnames_of reply_nul_padded <= len reply_nul_padded /\
   _decode_ip_query_packet reply_nul_padded
   = Ok (0x1234, Some [(lit "A" ++ repeat 0%N 14, 0x20)]) /\
   spec_decode reply_nul_padded = Ok (0x1234, Some [(lit "A", 0x20)]) /\
   _decode_ip_query_packet reply_nul_padded <> spec_decode reply_nul_padded)
  /\
  (57 + 18 * numnames_of reply_lead_space <= len reply_lead_space /\
   _decode_ip_query_packet reply_lead_space
   = Ok (0x1234, Some [(lit "A", 0x20)]) /\
   spec_decode reply_lead_space = Ok (0x1234, Some [(lit " A", 0x20)]) /\
   _decode_ip_query_packet reply_lead_space <> spec_decode reply_lead_space)
  /\
  (57 + 18 * numnames_of reply_high_byte <= len reply_high_byte /\
   _decode_ip_query_packet reply_high_byte = Raise UnicodeDecodeError /\
   _decode_ip_query_packet reply_high_byte <> spec_decode reply_high_byte).
Proof.
  repeat split; try reflexivity; vm_compute; discriminate.
Qed.

(** C6 (as amended): a buffer of at least 12 bytes raises when it is too
    short to hold the name count at offset 56, or the type byte of the
    last declared entry (less than 57 + 18 * numnames - 2 bytes).  The
    two flag bytes of the last entry are never read: a buffer that
    reaches that type byte decodes like a complete one, giving the
    records when the name fields are ASCII and UnicodeDecodeError when
    one of them holds a byte of 0x80 or above. *)
Theorem C6_short_reply_raises (data : bytes) :
  12 <= len data ->
  (len data < 57 -> _decode_ip_query_packet data = Raise IndexError)
  /\
  (57 <= len data -> numnames_of data > 0 ->
   len data < 57 + 18 * numnames_of data - 2 ->
   _decode_ip_query_packet data = Raise IndexError \/
   _decode_ip_query_packet data = Raise UnicodeDecodeError)
  /\
  (57 <= len data -> numnames_of data > 0 ->
   57 + 18 * numnames_of data - 2 <= len data ->
   (forall i, (i < Z.to_nat (numnames_of data))%nat ->
              ascii_bytes (entry_name data i)) ->
   _decode_ip_query_packet data
   = Ok (trn_id_of data,
         Some (map (record_at data) (seq 0 (Z.to_nat (numnames_of data))))))
  /\
  (57 <= len data -> numnames_of data > 0 ->
   57 + 18 * numnames_of data - 2 <= len data ->
   (exists i, (i < Z.to_nat (numnames_of data))%nat /\
              high_byte (entry_name data i)) ->
   _decode_ip_query_packet data = Raise UnicodeDecodeError).
Proof.
  intros H12. split; [|split; [|split]].
  - intros Hlt. rewrite decode_body by assumption.
    rewrite getitem_past_end by lia. reflexivity.
  - intros H57 Hk Hlt. rewrite decode_complete by assumption.
    replace (numnames_of data >? 0) with true
      by (symmetry; apply Z.gtb_lt; lia).
    destruct (decode_names_short data (Z.to_nat (numnames_of data)) 0 [])
      as [E|E]; try rewrite E; auto.
    + lia.
    + unfold entry_offset. lia.
  - intros H57 Hk Hge Hascii. rewrite decode_complete by assumption.
    replace (numnames_of data >? 0) with true
      by (symmetry; apply Z.gtb_lt; lia).
    rewrite decode_names_ok; [reflexivity| |].
    + unfold entry_offset. lia.
    + intros i Hi. apply Hascii. lia.
  - intros H57 Hk Hge (i & Hi & Hhigh).
    rewrite decode_complete by assumption.
    replace (numnames_of data >? 0) with true
      by (symmetry; apply Z.gtb_lt; lia).
    rewrite decode_names_high; [reflexivity| |].
    + unfold entry_offset. lia.
    + exists i. split; [lia|exact Hhigh].
Qed.

Lemma C6_short_reply_raises_witness :
  _decode_ip_query_packet (firstn 50 reply_workstation) = Raise IndexError
  /\
  (_decode_ip_query_packet reply_cut_type = Raise IndexError \/
   _decode_ip_query_packet reply_cut_type = Raise UnicodeDecodeError)
  /\
  _decode_ip_query_packet reply_cut_flags
  = Ok (0x1234, Some [(lit "WORKSTATION", 0x20)])
  /\
  _decode_ip_query_packet (firstn 73 reply_high_byte)
  = Raise UnicodeDecodeError.
Proof.
  split; [|split; [|split]].
  - refine (proj1 (C6_short_reply_raises (firstn 50 reply_workstation) _) _).
    + vm_compute. discriminate.
    + reflexivity.
  - refine (proj1 (proj2 (C6_short_reply_raises reply_cut_type _)) _ _ _).
    + vm_compute. discriminate.
    + vm_compute. discriminate.
    + reflexivity.
    + reflexivity.
  - refine (proj1 (proj2 (proj2 (C6_short_reply_raises reply_cut_flags _)))
              _ _ _ _).
    + vm_compute. discriminate.
    + vm_compute. discriminate.
    + reflexivity.
    + vm_compute. discriminate.
    + intros i Hi.
      change (Z.to_nat (numnames_of reply_cut_flags)) with 1%nat in Hi.
      destruct i as [|i]; [|lia].
      vm_compute. repeat constructor.
  - refine (proj2 (proj2 (proj2
              (C6_short_reply_raises (firstn 73 reply_high_byte) _)))
              _ _ _ _).
    + vm_compute. discriminate.
    + vm_compute. discriminate.
    + reflexivity.
    + vm_compute. discriminate.
    + exists 0%nat. split; [vm_compute; lia|].
      apply Exists_cons_hd. vm_compute. discriminate.
Defined.

(** C6 as stated fails: with one entry declared, a buffer of 73 bytes is
    shorter than the 57 + 18 bytes of the declared structure, and the
    decoder returns a record all the same. *)
Lemma C6_counterexample :
  12 <= len reply_cut_flags /\
  numnames_of reply_cut_flags = 1 /\
  len reply_cut_flags < 57 + 18 * numnames_of reply_cut_flags /\
  _decode_ip_query_packet reply_cut_flags
  = Ok (0x1234, Some [(lit "WORKSTATION", 0x20)]).
Proof.
  repeat split; try reflexivity. vm_compute. discriminate.
Qed.




(** ** The poll loop and the public operation *)

Section ExchangeProps.

Variable time : Type.
Variable time_add : time -> time -> time.
Variable time_geb : time -> time -> bool.

Lemma decode_ok_nonempty (data : bytes) r :
  _decode_ip_query_packet data = Ok r -> (len data =? 0) = false.
Proof.
  intros E. apply Z.eqb_neq. intros H0.
  rewrite decode_short_header in E by lia. discriminate.
Qed.

Lemma poll_body_skipped (w : Z) (e : time) (r : round time) :
  skipped time_geb w e r -> poll_body time_geb w e r = Continue.
Proof.
  intros [Ht (data & t & ret & Hw & Hd & Hne)].
  unfold poll_body. rewrite Ht, Hw, (decode_ok_nonempty _ _ Hd), Hd.
  apply Z.eqb_neq in Hne. rewrite Hne. reflexivity.
Qed.

Lemma poll_loop_skip (w : Z) (e : time) (sk rest : list (round time)) :
  Forall (skipped time_geb w e) sk ->
  poll_loop time_geb w e (sk ++ rest) = poll_loop time_geb w e rest.
Proof.
  induction 1 as [|r sk Hr Hsk IH]; [reflexivity|].
  cbn [app poll_loop]. rewrite (poll_body_skipped _ _ _ Hr).
  cbn [except_select_error]. exact IH.
Qed.

Lemma poll_loop_deadline (w : Z) (e : time) (r : round time) rest :
  time_geb (clock r) e = true ->
  poll_loop time_geb w e (r :: rest) = Returned None.
Proof.
  intros Ht. cbn [poll_loop]. unfold poll_body. rewrite Ht. reflexivity.
Qed.

Lemma poll_loop_not_ready (w : Z) (e : time) (r : round time) rest :
  wait r = NotReady ->
  poll_loop time_geb w e (r :: rest) = Returned None.
Proof.
  intros Hw. cbn [poll_loop]. unfold poll_body. rewrite Hw.
  destruct (time_geb (clock r) e); reflexivity.
Qed.

Lemma poll_loop_matched (w : Z) (e : time) (r : round time) rest data ret :
  time_geb (clock r) e = false ->
  wait r = Ready (Datagram data) ->
  _decode_ip_query_packet data = Ok (w, ret) ->
  poll_loop time_geb w e (r :: rest) = Returned ret.
Proof.
  intros Ht Hw Hd. cbn [poll_loop]. unfold poll_body.
  rewrite Ht, Hw, (decode_ok_nonempty _ _ Hd), Hd, Z.eqb_refl.
  reflexivity.
Qed.

(** Whatever list the loop returns was decoded from a datagram that
    arrived before the deadline and carried the awaited id. *)
Lemma poll_loop_returns (w : Z) (e : time) (rounds : list (round time)) :
  forall ret,
    poll_loop time_geb w e rounds = Returned (Some ret) ->
    exists r data,
      In r rounds /\ time_geb (clock r) e = false /\
      wait r = Ready (Datagram data) /\
      _decode_ip_query_packet data = Ok (w, Some ret).
Proof.
  induction rounds as [|r rounds IH]; intros ret E; [discriminate|].
  cbn [poll_loop] in E. unfold poll_body in E.
  destruct (time_geb (clock r) e) eqn:Ht; [discriminate|].
  destruct (wait r) as [|[data|errno]|errno] eqn:Hw; try discriminate.
  destruct (len data =? 0); [discriminate|].
  destruct (_decode_ip_query_packet data) as [[t ret']|ex] eqn:Hd.
  - destruct (t =? w) eqn:Etw.
    + apply Z.eqb_eq in Etw. subst t. cbn in E. injection E as ->.
      exists r, data. cbn [In]. auto.
    + cbn in E. destruct (IH ret E) as (r' & d' & Hin & H').
      exists r', d'. cbn [In]. auto.
  - destruct ex; discriminate.
Qed.

Lemma poll_loop_select_error (w : Z) (e : time) (r : round time) rest errno :
  time_geb (clock r) e = false ->
  wait r = SelectError errno ->
  poll_loop time_geb w e (r :: rest) = Raised (OSError errno).
Proof.
  intros Ht Hw. cbn [poll_loop]. unfold poll_body. rewrite Ht, Hw.
  reflexivity.
Qed.


(** A datagram on which the decoder raises ends the exchange with that
    exception, whatever transaction id its header carries. *)
Remark poll_loop_decode_error (w : Z) (e : time) (r : round time) rest
  data ex :
  time_geb (clock r) e = false ->
  wait r = Ready (Datagram data) ->
  (len data =? 0) = false ->
  _decode_ip_query_packet data = Raise ex ->
  poll_loop time_geb w e (r :: rest) = Raised ex.
Proof.
  intros Ht Hw Hl Hd. cbn [poll_loop]. unfold poll_body.
  rewrite Ht, Hw, Hl, Hd. destruct ex; reflexivity.
Qed.

(** C5 (as amended): in one exchange, rounds that deliver a reply which
    the decoder decodes in full with another transaction id before the
    deadline are discarded and the loop goes on with the rounds after
    them (so such replies alone leave the loop running); a record list is
    returned only from a datagram decoded with the awaited id, and the
    first datagram so decoded before the deadline is what the loop
    returns; once the clock reads the deadline [now + timeout] or later
    the loop returns None; and a datagram that is not empty and on which
    the decoder raises ends the exchange with that exception, whatever
    transaction id it carries. *)
Theorem C5_mismatch_discarded (wait_trn_id : Z) (timeout : time)
  (env : environment time) :
  (forall sk rest,
      Forall (skipped time_geb wait_trn_id (time_add (now env) timeout)) sk ->
      _poll_for_query_packet time_add time_geb wait_trn_id timeout
        (with_script env (sk ++ rest))
      = _poll_for_query_packet time_add time_geb wait_trn_id timeout
          (with_script env rest))
  /\
  (forall sk,
      Forall (skipped time_geb wait_trn_id (time_add (now env) timeout)) sk ->
      _poll_for_query_packet time_add time_geb wait_trn_id timeout
        (with_script env sk) = Running)
  /\
  (forall ret,
      _poll_for_query_packet time_add time_geb wait_trn_id timeout env
      = Returned (Some ret) ->
      exists r data,
        In r (script env) /\
        time_geb (clock r) (time_add (now env) timeout) = false /\
        wait r = Ready (Datagram data) /\
        _decode_ip_query_packet data = Ok (wait_trn_id, Some ret))
  /\
  (forall sk r rest,
      Forall (skipped time_geb wait_trn_id (time_add (now env) timeout)) sk ->
      time_geb (clock r) (time_add (now env) timeout) = true ->
      _poll_for_query_packet time_add time_geb wait_trn_id timeout
        (with_script env (sk ++ r :: rest)) = Returned None)
  /\
  (forall sk r rest data ret,
      Forall (skipped time_geb wait_trn_id (time_add (now env) timeout)) sk ->
      time_geb (clock r) (time_add (now env) timeout) = false ->
      wait r = Ready (Datagram data) ->
      _decode_ip_query_packet data = Ok (wait_trn_id, ret) ->
      _poll_for_query_packet time_add time_geb wait_trn_id timeout
        (with_script env (sk ++ r :: rest)) = Returned ret)
  /\
  (forall sk r rest data ex,
      Forall (skipped time_geb wait_trn_id (time_add (now env) timeout)) sk ->
      time_geb (clock r) (time_add (now env) timeout) = false ->
      wait r = Ready (Datagram data) ->
      data <> [] ->
      _decode_ip_query_packet data = Raise ex ->
      _poll_for_query_packet time_add time_geb wait_trn_id timeout
        (with_script env (sk ++ r :: rest)) = Raised ex).
Proof.
  unfold _poll_for_query_packet, with_script. cbn [now script].
  repeat split.
  - intros sk rest Hsk. apply poll_loop_skip. assumption.
  - intros sk Hsk. rewrite <- (app_nil_r sk).
    rewrite poll_loop_skip by assumption. reflexivity.
  - intros ret E. apply poll_loop_returns in E. exact E.
  - intros sk r rest Hsk Ht. rewrite poll_loop_skip by assumption.
    apply poll_loop_deadline. assumption.
  - intros sk r rest data ret Hsk Ht Hw Hd.
    rewrite poll_loop_skip by assumption.
    eapply poll_loop_matched; eassumption.
  - intros sk r rest data ex Hsk Ht Hw Hne Hd.
    rewrite poll_loop_skip by assumption.
    eapply poll_loop_decode_error; try eassumption.
    apply Z.eqb_neq. destruct data; [contradiction|].
    unfold len. cbn [List.length]. lia.
Qed.

(** C7 (the code's behaviour): an error raised by [select] before the
    deadline, EINTR and EAGAIN included, ends the exchange and reaches
    the caller; the rounds after it are never consulted. *)
Theorem C7_select_error_surfaces (wait_trn_id : Z) (timeout : time)
  (env : environment time) (r : round time) (rest : list (round time))
  (errno : Z) :
  script env = r :: rest ->
  time_geb (clock r) (time_add (now env) timeout) = false ->
  wait r = SelectError errno ->
  _poll_for_query_packet time_add time_geb wait_trn_id timeout env
  = Raised (OSError errno).
Proof.
  intros Hs Ht Hw. unfold _poll_for_query_packet. rewrite Hs.
  apply poll_loop_select_error; assumption.
Qed.

Lemma query_unfold (self : NetBIOS) (ip : str) (port : Z) (timeout : time)
  (env : environment time) :
  sock self = true -> 0 <= randint env <= 0xFFFF ->
  exists data,
    _prepare_net_name_query (randint env) false = Ok data /\
    fst (query_ip_for_name time_add time_geb self ip port timeout env)
    = [mk_sendto data ip port] /\
    (sendto_error env = None ->
     snd (query_ip_for_name time_add time_geb self ip port timeout env)
     = match _poll_for_query_packet time_add time_geb (randint env)
               timeout env with
       | Returned ret =>
           if truthy ret then Returned (Some (server_names (records_of ret)))
           else Returned None
       | Raised e => Raised e
       | Running => Running
       end).
Proof.
  intros Hs Hr.
  destruct (prepare_layout (randint env) false Hr) as (hi & lo & _ & _ & E).
  eexists. split; [exact E|].
  unfold query_ip_for_name, _write. rewrite Hs, E. cbn [negb].
  split.
  - destruct (sendto_error env); reflexivity.
  - intros ->. reflexivity.
Qed.

(** C2: with the socket open and the datagram sent, after any replies
    skipped for their transaction id: a matching reply that decodes to
    a record list makes [query_ip_for_name] return the names of the
    records whose type is 0x20, in order; a round at or past the
    deadline, a wait that ends with nothing ready, or a matching reply
    with numnames = 0 makes it return None. *)
Theorem C2_query_result (self : NetBIOS) (ip : str) (port : Z)
  (timeout : time) (env : environment time)
  (sk : list (round time)) (r : round time) (rest : list (round time)) :
  sock self = true ->
  1 <= randint env <= 0xFFFF ->
  sendto_error env = None ->
  script env = sk ++ r :: rest ->
  Forall (skipped time_geb (randint env) (time_add (now env) timeout)) sk ->
  (forall data recs,
      time_geb (clock r) (time_add (now env) timeout) = false ->
      wait r = Ready (Datagram data) ->
      _decode_ip_query_packet data = Ok (randint env, Some recs) ->
      snd (query_ip_for_name time_add time_geb self ip port timeout env)
      = Returned (Some (map fst (filter (fun s => snd s =? 0x20) recs))))
  /\
  (time_geb (clock r) (time_add (now env) timeout) = true \/
   wait r = NotReady \/
   (exists data, wait r = Ready (Datagram data) /\ 57 <= len data /\
                 trn_id_of data = randint env /\ numnames_of data = 0) ->
   snd (query_ip_for_name time_add time_geb self ip port timeout env)
   = Returned None).
Proof.
  intros Hs Hr Hsend Hscript Hsk.
  destruct (query_unfold self ip port timeout env Hs) as (d & _ & _ & Hq);
    [lia|].
  rewrite (Hq Hsend). clear Hq.
  unfold _poll_for_query_packet. rewrite Hscript.
  rewrite poll_loop_skip by assumption.
  split.
  - intros data recs Ht Hw Hd.
    rewrite (poll_loop_matched _ _ _ _ _ _ Ht Hw Hd).
    pose proof (decode_some_nonempty _ _ _ Hd) as Hne.
    destruct recs as [|rec recs]; [congruence|]. reflexivity.
  - intros [Ht|[Hw|(data & Hw & Hlen & Hid & Hk)]].
    + rewrite poll_loop_deadline by assumption. reflexivity.
    + rewrite poll_loop_not_ready by assumption. reflexivity.
    + destruct (time_geb (clock r) (time_add (now env) timeout)) eqn:Ht.
      * rewrite poll_loop_deadline by assumption. reflexivity.
      * assert (Hd : _decode_ip_query_packet data = Ok (randint env, None)).
        { rewrite decode_complete, Hk, Hid by assumption. reflexivity. }
        rewrite (poll_loop_matched _ _ _ _ _ _ Ht Hw Hd). reflexivity.
Qed.

(** C10: whether the instance was built with broadcast on or off,
    [query_ip_for_name] hands [sendto] one datagram, the one the builder
    makes with is_broadcast = False, whose flags word unpacks to
    0x0000. *)
Theorem C10_flags_never_set (b : bool) (ip : str) (port : Z)
  (timeout : time) (env : environment time) :
  1 <= randint env <= 0xFFFF ->
  exists data,
    fst (query_ip_for_name time_add time_geb (mk_NetBIOS b true)
           ip port timeout env) = [mk_sendto data ip port] /\
    _prepare_net_name_query (randint env) false = Ok data /\
    unpack HEADER_STRUCT_FORMAT (slice data 0 HEADER_STRUCT_SIZE)
    = Ok [randint env; 0x0000; 1; 0; 0; 0] /\
    slice data 2 4 = [x00; x00].
Proof.
  intros Hr.
  destruct (query_unfold (mk_NetBIOS b true) ip port timeout env eq_refl)
    as (d & Hd & Hsent & _); [lia|].
  destruct (prepare_unpack (randint env) false) as (d' & Hd' & Hu); [lia|].
  rewrite Hd in Hd'. injection Hd' as <-.
  exists d. repeat split; try assumption.
  destruct (prepare_layout (randint env) false) as (hi & lo & _ & _ & E);
    [lia|].
  rewrite Hd in E. injection E as ->. reflexivity.
Qed.

End ExchangeProps.

(** ** The exchange on the sample script *)

Lemma sample_first_skipped :
  Forall (skipped Z.geb 0x1234 (0 + 30))
    [mk_round 1 (Ready (Datagram reply_other_id))].
Proof.
  constructor; [|constructor]. split; [reflexivity|].
  exists reply_other_id, 0xabcd, (Some [(lit "WORKSTATION", 0x20)]).
  split; [reflexivity|]. split; [reflexivity|]. discriminate.
Qed.

Lemma C5_mismatch_discarded_witness :
  _poll_for_query_packet Z.add Z.geb 0x1234 30 (sample_env sample_rounds)
  = _poll_for_query_packet Z.add Z.geb 0x1234 30
      (sample_env [mk_round 2 (Ready (Datagram reply_workstation))])
  /\
  _poll_for_query_packet Z.add Z.geb 0x1234 30 (sample_env sample_rounds)
  = Returned (Some [(lit "WORKSTATION", 0x20)])
  /\
  _poll_for_query_packet Z.add Z.geb 0x1234 30
    (sample_env [mk_round 1 (Ready (Datagram reply_other_id));
                 mk_round 2 (Ready (Datagram query_other_id));
                 mk_round 3 (Ready (Datagram reply_workstation))])
  = Raised IndexError.
Proof.
  split; [|split].
  - exact (proj1 (C5_mismatch_discarded Z Z.add Z.geb 0x1234 30
                    (sample_env []))
             [mk_round 1 (Ready (Datagram reply_other_id))]
             [mk_round 2 (Ready (Datagram reply_workstation))]
             sample_first_skipped).
  - exact (proj1 (proj2 (proj2 (proj2 (proj2
             (C5_mismatch_discarded Z Z.add Z.geb 0x1234 30
                (sample_env []))))))
             [mk_round 1 (Ready (Datagram reply_other_id))]
             (mk_round 2 (Ready (Datagram reply_workstation))) []
             reply_workstation (Some [(lit "WORKSTATION", 0x20)])
             sample_first_skipped eq_refl eq_refl eq_refl).
  - refine (proj2 (proj2 (proj2 (proj2 (proj2
             (C5_mismatch_discarded Z Z.add Z.geb 0x1234 30
                (sample_env []))))))
             [mk_round 1 (Ready (Datagram reply_other_id))]
             (mk_round 2 (Ready (Datagram query_other_id)))
             [mk_round 3 (Ready (Datagram reply_workstation))]
             query_other_id IndexError
             sample_first_skipped eq_refl eq_refl _ eq_refl).
    discriminate.
Defined.

(** C5 as stated fails: another host's query, 50 bytes with transaction
    id 0xABCD, arrives at time 1 of an exchange awaiting 0x1234 whose
    deadline is 30.  It is not discarded: the decoder raises IndexError
    on it before the ids are compared, and the exchange ends there, the
    awaited reply of time 2 unread. *)
Lemma C5_counterexample :
  trn_id_of query_other_id = 0xABCD /\ 0xABCD <> 0x1234 /\
  Z.geb 1 (0 + 30) = false /\
  _poll_for_query_packet Z.add Z.geb 0x1234 30
    (sample_env [mk_round 1 (Ready (Datagram query_other_id));
                 mk_round 2 (Ready (Datagram reply_workstation))])
  = Raised IndexError /\
  _poll_for_query_packet Z.add Z.geb 0x1234 30
    (sample_env [mk_round 2 (Ready (Datagram reply_workstation))])
  = Returned (Some [(lit "WORKSTATION", 0x20)]).
Proof.
  repeat split; try reflexivity. discriminate.
Qed.

Lemma C7_select_error_surfaces_witness :
  _poll_for_query_packet Z.add Z.geb 0x1234 30
    (sample_env [mk_round 1 (SelectError EINTR);
                 mk_round 2 (Ready (Datagram reply_workstation))])
  = Raised (OSError EINTR).
Proof.
  refine (C7_select_error_surfaces Z Z.add Z.geb 0x1234 30 _
            (mk_round 1 (SelectError EINTR))
            [mk_round 2 (Ready (Datagram reply_workstation))]
            EINTR _ _ _); reflexivity.
Defined.

Lemma C2_query_result_witness :
  snd (query_ip_for_name Z.add Z.geb (mk_NetBIOS true true) [] 137 30
         (sample_env sample_rounds))
  = Returned (Some [lit "WORKSTATION"])
  /\
  snd (query_ip_for_name Z.add Z.geb (mk_NetBIOS true true) [] 137 30
         (sample_env [mk_round 1 (Ready (Datagram reply_other_id));
                      mk_round 30 (Ready (Datagram reply_workstation))]))
  = Returned None.
Proof.
  split.
  - refine (proj1 (C2_query_result Z Z.add Z.geb (mk_NetBIOS true true)
                     [] 137 30 (sample_env sample_rounds)
                     [mk_round 1 (Ready (Datagram reply_other_id))]
                     (mk_round 2 (Ready (Datagram reply_workstation))) []
                     _ _ _ _ _)
              reply_workstation [(lit "WORKSTATION", 0x20)] _ _ _);
      try reflexivity.
    + cbn. lia.
    + exact sample_first_skipped.
  - refine (proj2 (C2_query_result Z Z.add Z.geb (mk_NetBIOS true true)
                     [] 137 30
                     (sample_env
                        [mk_round 1 (Ready (Datagram reply_other_id));
                         mk_round 30 (Ready (Datagram reply_workstation))])
                     [mk_round 1 (Ready (Datagram reply_other_id))]
                     (mk_round 30 (Ready (Datagram reply_workstation))) []
                     _ _ _ _ _) _);
      try reflexivity.
    + cbn. lia.
    + exact sample_first_skipped.
    + left. reflexivity.
Defined.

Lemma C10_flags_never_set_witness :
  exists data,
    fst (query_ip_for_name Z.add Z.geb (mk_NetBIOS true true) [] 137 30
           (sample_env sample_rounds)) = [mk_sendto data [] 137] /\
    _prepare_net_name_query 0x1234 false = Ok data /\
    unpack HEADER_STRUCT_FORMAT (slice data 0 HEADER_STRUCT_SIZE)
    = Ok [0x1234; 0x0000; 1; 0; 0; 0] /\
    slice data 2 4 = [x00; x00].
Proof.
  refine (C10_flags_never_set Z Z.add Z.geb true [] 137 30
            (sample_env sample_rounds) _).
  cbn. lia.
Defined.

(** ** Further properties of the name encoder *)

Lemma nth_ascii_uppercase (n : nat) :
  (n < 26)%nat -> nth n ascii_uppercase 0%N = N.of_nat (65 + n).
Proof.
  intros Hn.
  do 26 (destruct n as [|n]; [reflexivity|]). lia.
Qed.

Lemma getitem_ascii_uppercase (i : Z) :
  0 <= i < 26 -> getitem ascii_uppercase i = Ok (Z.to_N (65 + i)).
Proof.
  intros Hi. rewrite (getitem_in_range ascii_uppercase i 0%N) by exact Hi.
  rewrite nth_ascii_uppercase by lia. f_equal. lia.
Qed.

Lemma first_level_value (c : char) :
  (c < 416)%N ->
  _do_first_level_encoding c = Ok [(65 + c / 16)%N; (65 + c mod 16)%N].
Proof.
  intros Hc. unfold _do_first_level_encoding, ord.
  rewrite Z.shiftr_div_pow2 by lia. change (2 ^ 4) with 16.
  change 0x0f with (Z.ones 4). rewrite Z.land_ones by lia.
  change (2 ^ 4) with 16.
  rewrite !getitem_ascii_uppercase.
  - cbn [bind]. change 16 with (Z.of_N 16).
    rewrite <- N2Z.inj_div, <- N2Z.inj_mod.
    generalize (c / 16)%N (c mod 16)%N. intros q r.
    replace (Z.to_N (65 + Z.of_N q)) with (65 + q)%N by lia.
    replace (Z.to_N (65 + Z.of_N r)) with (65 + r)%N by lia.
    reflexivity.
  - pose proof (Z.mod_pos_bound (Z.of_N c) 16). lia.
  - split; [apply Z.div_pos; lia|apply Z.div_lt_upper_bound; lia].
Qed.

Lemma re_sub_dot_closed (s : str) :
  in_table s ->
  re_sub_dot _do_first_level_encoding s = Ok (flat_map first_level s).
Proof.
  induction 1 as [|c s Hc Hs IH]; [reflexivity|].
  cbn [re_sub_dot flat_map]. unfold first_level at 1.
  destruct (c =? 10)%N; [|rewrite (first_level_value c Hc)];
    cbn [bind]; rewrite IH; reflexivity.
Qed.

Lemma bytes_ascii_inv (s : str) (out : bytes) :
  bytes_ascii s = Ok out -> chars_of_bytes out = s.
Proof.
  revert out. induction s as [|c s IH]; intros out E; cbn [bytes_ascii] in E.
  - injection E as <-. reflexivity.
  - destruct (c <? 128)%N; [|discriminate].
    destruct (Byte.of_N c) as [b|] eqn:Eb; [|discriminate].
    destruct (bytes_ascii s) as [t|]; cbn [bind] in E; [|discriminate].
    injection E as <-. cbn [chars_of_bytes map].
    apply Byte.to_of_N in Eb. rewrite Eb. f_equal. apply IH. reflexivity.
Qed.

Lemma star_length : List.length (lit "*") = 1%nat.
Proof. reflexivity. Qed.

(** The value the [if] statement gives [name], away from the wildcard. *)
Lemma padded_name_value (name : str) (type : Z) :
  name <> lit "*" -> 0 <= type < 0x110000 ->
  padded_name name type = Ok (name_field name type).
Proof.
  intros Hne Ht. unfold padded_name, name_field, str_eqb.
  destruct (list_eq_dec N.eq_dec name (lit "*")) as [E|_]; [contradiction|].
  rewrite (chr_ok type Ht). cbn [bind].
  destruct (len name >? 15) eqn:El.
  - apply Z.gtb_lt in El. unfold ljust.
    replace (Z.to_nat (15 - len (firstn 15 name))) with 0%nat.
    + cbn [repeat]. rewrite app_nil_r. reflexivity.
    + unfold len in *. rewrite length_firstn. lia.
  - assert (Hl : len name <= 15).
    { destruct (Z.gtb_spec (len name) 15); [discriminate|lia]. }
    unfold len in Hl. rewrite firstn_all2 by lia. reflexivity.
Qed.

Lemma chr_out_of_range (i : Z) :
  ~ 0 <= i < 0x110000 ->
  chr i = Raise (if (i <? -2147483648) || (2147483647 <? i)
                 then OverflowError else ValueError).
Proof.
  intros Hi. unfold chr.
  destruct ((i <? -2147483648) || (2147483647 <? i)); [reflexivity|].
  destruct (0 <=? i) eqn:E0; [|reflexivity].
  destruct (i <? 0x110000) eqn:E1; [|reflexivity].
  apply Z.leb_le in E0. apply Z.ltb_lt in E1. lia.
Qed.

Lemma padded_name_type_error (name : str) (type : Z) :
  name <> lit "*" -> ~ 0 <= type < 0x110000 ->
  padded_name name type
  = Raise (if (type <? -2147483648) || (2147483647 <? type)
           then OverflowError else ValueError).
Proof.
  intros Hne Ht. unfold padded_name, str_eqb.
  destruct (list_eq_dec N.eq_dec name (lit "*")) as [E|_]; [contradiction|].
  rewrite (chr_out_of_range type Ht). destruct (len name >? 15); reflexivity.
Qed.

Lemma name_field_length (name : str) (type : Z) :
  len (name_field name type) = 16.
Proof.
  unfold name_field, ljust. rewrite !len_app. unfold len.
  rewrite repeat_length, length_firstn. cbn [List.length]. lia.
Qed.

(** X1.  How the type argument is treated.  The wildcard name ignores it
    altogether; for any other name a type that fits a C int but is no
    code point raises ValueError, a type that does not fit a C int raises
    OverflowError, and a code point from 416 up raises IndexError,
    whatever the scope. *)
Theorem encode_type_handling (name : str) (type : Z) (scope : option str) :
  (truthy_scope scope = false ->
   _encode_name (lit "*") type scope = Ok wildcard_name)
  /\
  (name <> lit "*" ->
   -2147483648 <= type < 0 \/ 0x110000 <= type <= 2147483647 ->
   _encode_name name type scope = Raise ValueError)
  /\
  (name <> lit "*" ->
   type < -2147483648 \/ 2147483647 < type ->
   _encode_name name type scope = Raise OverflowError)
  /\
  (name <> lit "*" -> 416 <= type < 0x110000 ->
   _encode_name name type scope = Raise IndexError).
Proof.
  split; [|split; [|split]].
  - intros Hsc. unfold _encode_name. rewrite Hsc. reflexivity.
  - intros Hne Ht. unfold _encode_name.
    rewrite (padded_name_type_error name type Hne) by lia.
    replace ((type <? -2147483648) || (2147483647 <? type)) with false;
      [reflexivity|].
    symmetry. apply orb_false_iff. split; apply Z.ltb_ge; lia.
  - intros Hne Ht. unfold _encode_name.
    rewrite (padded_name_type_error name type Hne) by lia.
    replace ((type <? -2147483648) || (2147483647 <? type)) with true;
      [reflexivity|].
    symmetry. apply orb_true_iff.
    destruct Ht; [left|right]; apply Z.ltb_lt; lia.
  - intros Hne Ht. unfold _encode_name.
    rewrite padded_name_value by (auto; lia). cbn [bind].
    rewrite name_field_length. change (chr (16 * 2)) with (@Ok char 32%N).
    cbn [bind].
    destruct (re_sub_dot_cases (name_field name type))
      as [(Hin & _)|(_ & E)]; [|rewrite E; reflexivity].
    exfalso. unfold in_table, name_field in Hin.
    apply Forall_app in Hin. destruct Hin as [_ Hin].
    inversion Hin as [|c l Hc Hl]. lia.
Qed.

Lemma encode_type_handling_witness :
  _encode_name (lit "*") (-1) None = Ok wildcard_name /\
  _encode_name (lit "HOST") (-1) None = Raise ValueError /\
  _encode_name (lit "HOST") 0x80000000 None = Raise OverflowError /\
  _encode_name (lit "HOST") 0x1A0 None = Raise IndexError.
Proof.
  split; [|split; [|split]].
  - refine (proj1 (encode_type_handling (lit "HOST") (-1) None) _).
    reflexivity.
  - refine (proj1 (proj2 (encode_type_handling (lit "HOST") (-1) None)) _ _).
    + discriminate.
    + lia.
  - refine (proj1 (proj2 (proj2
              (encode_type_handling (lit "HOST") 0x80000000 None))) _ _).
    + discriminate.
    + lia.
  - refine (proj2 (proj2 (proj2
              (encode_type_handling (lit "HOST") 0x1A0 None))) _ _).
    + discriminate.
    + lia.
Defined.

Lemma in_table_name_field (name : str) (type : Z) :
  in_table (firstn 15 name) -> 0 <= type < 416 ->
  in_table (name_field name type).
Proof.
  intros Hin Ht. unfold in_table, name_field, ljust in *.
  apply Forall_app. split; [apply Forall_app; split; [assumption|]|].
  - apply Forall_forall. intros c Hc. apply repeat_spec in Hc. subst c. lia.
  - constructor; [lia|constructor].
Qed.

Lemma flat_map_first_level_length (s : str) :
  len (flat_map first_level s)
  = 2 * len s - Z.of_nat (count_occ N.eq_dec s 10%N).
Proof.
  unfold len. induction s as [|c s IH]; [reflexivity|].
  cbn [flat_map count_occ]. rewrite length_app. unfold first_level at 1.
  destruct (N.eq_dec c 10) as [->|Hc].
  - change (10 =? 10)%N with true. cbn [List.length] in *. lia.
  - apply N.eqb_neq in Hc. rewrite Hc. cbn [List.length] in *. lia.
Qed.

Lemma ascii_first_level (s : str) :
  in_table s -> ascii_str (flat_map first_level s).
Proof.
  unfold in_table, ascii_str. induction 1 as [|c s Hc Hs IH]; [constructor|].
  cbn [flat_map]. apply Forall_app. split; [|exact IH].
  unfold first_level. destruct (N.eqb_spec c 10) as [->|Hne].
  - constructor; [lia|constructor].
  - assert (c / 16 < 26)%N by (apply N.Div0.div_lt_upper_bound; lia).
    assert (c mod 16 < 16)%N by (apply N.mod_lt; lia).
    constructor; [lia|constructor; [lia|constructor]].
Qed.

Lemma encode_field (name : str) (type : Z) (scope : option str) :
  name <> lit "*" -> 0 <= type < 0x110000 ->
  _encode_name name type scope
  = (enc <- re_sub_dot _do_first_level_encoding (name_field name type) ;;
     let encoded_name := 32%N :: enc in
     if truthy_scope scope then
       labels <- string_split (scope_text scope) (lit ".") ;;
       encoded_scope <- encode_scope_labels labels [] ;;
       bytes_ascii (encoded_name ++ encoded_scope ++ [0%N])
     else bytes_ascii (encoded_name ++ [0%N])).
Proof.
  intros Hne Ht. unfold _encode_name.
  rewrite padded_name_value by assumption. cbn [bind].
  rewrite name_field_length. reflexivity.
Qed.

(** What the encoder returns, read backwards: the type was a code point,
    the field was within the letter table, there was no scope, and the
    output is the length byte, the substitution of each field character
    and a NUL. *)
Lemma encode_ok_inv (name : str) (type : Z) (scope : option str)
  (out : bytes) :
  name <> lit "*" ->
  _encode_name name type scope = Ok out ->
  0 <= type < 0x110000 /\
  in_table (name_field name type) /\
  truthy_scope scope = false /\
  chars_of_bytes out
  = 32%N :: flat_map first_level (name_field name type) ++ [0%N].
Proof.
  intros Hne E.
  assert (Ht : 0 <= type < 0x110000).
  { destruct (Z_le_dec 0 type) as [H0|H0];
      [destruct (Z_lt_dec type 0x110000) as [H1|H1]; [lia|]|].
    all: unfold _encode_name in E;
      rewrite padded_name_type_error in E by (auto; lia); discriminate. }
  split; [exact Ht|].
  rewrite encode_field in E by assumption.
  destruct (re_sub_dot_cases (name_field name type))
    as [(Hin & _)|(_ & Er)]; [|rewrite Er in E; discriminate].
  split; [exact Hin|].
  rewrite (re_sub_dot_closed _ Hin) in E. cbn [bind] in E.
  destruct (truthy_scope scope); [discriminate|].
  split; [reflexivity|]. apply bytes_ascii_inv in E. exact E.
Qed.

(** X2.  The wire form of a name other than the wildcard, with no scope: the
    length byte 0x20, then for each of the 16 field characters (the first
    15 of the name, space padded, and the type) the letters 'A' + high
    nibble and 'A' + low nibble, a newline being copied as it is, then
    NUL.  It is 34 bytes long, less one for each newline in the field. *)
Theorem encode_closed_form (name : str) (type : Z) (scope : option str) :
  name <> lit "*" -> 0 <= type < 416 -> in_table (firstn 15 name) ->
  truthy_scope scope = false ->
  exists out,
    _encode_name name type scope = Ok out /\
    chars_of_bytes out
    = 32%N :: flat_map first_level (name_field name type) ++ [0%N] /\
    len out
    = 34 - Z.of_nat (count_occ N.eq_dec (name_field name type) 10%N).
Proof.
  intros Hne Ht Hin Hsc.
  pose proof (in_table_name_field name type Hin Ht) as Hf.
  destruct (bytes_ascii_total
              ((32%N :: flat_map first_level (name_field name type))
                 ++ [0%N])) as [out Eo].
  { unfold ascii_str. apply Forall_app. split.
    - constructor; [lia|]. apply ascii_first_level. exact Hf.
    - constructor; [lia|constructor]. }
  exists out.
  assert (E : _encode_name name type scope = Ok out).
  { rewrite encode_field by (auto; lia).
    rewrite (re_sub_dot_closed _ Hf), Hsc. exact Eo. }
  split; [exact E|].
  apply bytes_ascii_inv in Eo. split; [exact Eo|].
  assert (Hl : len (chars_of_bytes out) = len out).
  { unfold len, chars_of_bytes. rewrite length_map. reflexivity. }
  rewrite <- Hl, Eo, len_app.
  change (32%N :: flat_map first_level (name_field name type))
    with ([32%N] ++ flat_map first_level (name_field name type)).
  rewrite len_app, flat_map_first_level_length, name_field_length.
  unfold len. cbn [List.length]. lia.
Qed.

Lemma encode_closed_form_witness :
  exists out,
    _encode_name (lit "FILESERVER") 0x20 None = Ok out /\
    chars_of_bytes out
    = 32%N :: flat_map first_level (name_field (lit "FILESERVER") 0x20)
        ++ [0%N] /\
    len out
    = 34 - Z.of_nat (count_occ N.eq_dec
                       (name_field (lit "FILESERVER") 0x20) 10%N).
Proof.
  refine (encode_closed_form (lit "FILESERVER") 0x20 None _ _ _ _).
  - discriminate.
  - lia.
  - unfold in_table. cbn. repeat (constructor; [lia|]). constructor.
  - reflexivity.
Defined.

Lemma first_level_inj (s1 s2 : str) :
  flat_map first_level s1 = flat_map first_level s2 -> s1 = s2.
Proof.
  revert s2. induction s1 as [|c1 s1 IH]; intros [|c2 s2] E.
  - reflexivity.
  - cbn [flat_map] in E. unfold first_level at 1 in E.
    destruct (c2 =? 10)%N; discriminate.
  - cbn [flat_map] in E. unfold first_level at 1 in E.
    destruct (c1 =? 10)%N; discriminate.
  - cbn [flat_map] in E. unfold first_level at 1 3 in E.
    remember (65 + c1 / 16)%N as a1 eqn:Ea1.
    remember (65 + c1 mod 16)%N as b1 eqn:Eb1.
    remember (65 + c2 / 16)%N as a2 eqn:Ea2.
    remember (65 + c2 mod 16)%N as b2 eqn:Eb2.
    assert (Hge1 : (65 <= a1)%N) by (subst a1; apply N.le_add_r).
    assert (Hge2 : (65 <= a2)%N) by (subst a2; apply N.le_add_r).
    destruct (N.eqb_spec c1 10) as [->|H1];
      destruct (N.eqb_spec c2 10) as [->|H2]; cbn [app] in E.
    + injection E as E. f_equal. apply IH. exact E.
    + injection E as Eh _. clear -Eh Hge2. lia.
    + injection E as Eh _. clear -Eh Hge1. lia.
    + injection E as Eq Er E. f_equal; [|apply IH; exact E].
      subst a1 b1 a2 b2. apply N.add_cancel_l in Eq, Er.
      rewrite (N.div_mod c1 16), (N.div_mod c2 16), Eq, Er by lia.
      reflexivity.
Qed.

(** X3.  Two names other than the wildcard that encode to the same bytes have
    the same type and the same first 15 characters up to the space
    padding: the encoding loses nothing else. *)
Theorem encode_injective (name1 name2 : str) (type1 type2 : Z)
  (scope1 scope2 : option str) (out : bytes) :
  name1 <> lit "*" -> name2 <> lit "*" ->
  _encode_name name1 type1 scope1 = Ok out ->
  _encode_name name2 type2 scope2 = Ok out ->
  ljust (firstn 15 name1) 15 = ljust (firstn 15 name2) 15 /\ type1 = type2.
Proof.
  intros Hn1 Hn2 E1 E2.
  destruct (encode_ok_inv _ _ _ _ Hn1 E1) as (Ht1 & _ & _ & Ec1).
  destruct (encode_ok_inv _ _ _ _ Hn2 E2) as (Ht2 & _ & _ & Ec2).
  rewrite Ec1 in Ec2. injection Ec2 as Ec.
  apply app_inv_tail in Ec. apply first_level_inj in Ec.
  unfold name_field in Ec. apply app_inj_tail in Ec.
  destruct Ec as [Ef Et]. split; [exact Ef|lia].
Qed.

Lemma encode_injective_witness :
  ljust (firstn 15 (lit "HOST")) 15 = ljust (firstn 15 (lit "HOST  ")) 15 /\
  0x20 = 0x20.
Proof.
  refine (encode_injective (lit "HOST") (lit "HOST  ") 0x20 0x20 None None
            _ _ _ eq_refl eq_refl); discriminate.
Defined.

Lemma range_dec (type : Z) :
  {0 <= type < 0x110000} + {~ 0 <= type < 0x110000}.
Proof.
  destruct (Z_le_dec 0 type); [|right; lia].
  destruct (Z_lt_dec type 0x110000); [left; lia|right; lia].
Qed.

Lemma padded_name_firstn (name : str) (type : Z) :
  padded_name (firstn 15 name) type = padded_name name type.
Proof.
  destruct (list_eq_dec N.eq_dec name (lit "*")) as [->|Hne];
    [reflexivity|].
  assert (Hne' : firstn 15 name <> lit "*").
  { intros E. apply Hne.
    destruct (Nat.le_gt_cases (List.length name) 15) as [Hl|Hl].
    - rewrite firstn_all2 in E by exact Hl. exact E.
    - apply (f_equal (@List.length char)) in E.
      rewrite length_firstn, star_length in E. lia. }
  destruct (range_dec type) as [Ht|Ht].
  - rewrite !padded_name_value by assumption.
    unfold name_field. rewrite firstn_firstn. reflexivity.
  - rewrite !padded_name_type_error by assumption. reflexivity.
Qed.

Lemma padded_name_spaces (name : str) (type : Z) (k : nat) :
  name <> lit "*" -> len name + Z.of_nat k <= 15 ->
  padded_name (name ++ repeat 32%N k) type = padded_name name type.
Proof.
  intros Hne Hl.
  assert (Hne' : name ++ repeat 32%N k <> lit "*").
  { intros E. destruct k as [|k].
    - cbn [repeat] in E. rewrite app_nil_r in E. contradiction.
    - destruct name as [|c [|c' name]].
      + cbn in E. discriminate.
      + cbn in E. discriminate.
      + cbn in E. discriminate. }
  unfold len in Hl.
  destruct (range_dec type) as [Ht|Ht].
  - rewrite !padded_name_value by assumption. unfold name_field, ljust.
    rewrite !firstn_all2 by (rewrite ?length_app, ?repeat_length; lia).
    unfold len. rewrite length_app, repeat_length.
    replace (Z.to_nat (15 - Z.of_nat (List.length name)))
      with (k + Z.to_nat (15 - Z.of_nat (List.length name + k)))%nat by lia.
    rewrite repeat_app, <- !app_assoc. reflexivity.
  - rewrite !padded_name_type_error by assumption. reflexivity.
Qed.

(** X4.  What the encoder does not see: characters after the fifteenth, and
    trailing spaces of a short name; outcome and errors are the same. *)
Theorem encode_canonical (name : str) (type : Z) (scope : option str)
  (k : nat) :
  _encode_name (firstn 15 name) type scope = _encode_name name type scope
  /\
  (name <> lit "*" -> len name + Z.of_nat k <= 15 ->
   _encode_name (name ++ repeat 32%N k) type scope
   = _encode_name name type scope).
Proof.
  split.
  - unfold _encode_name. rewrite padded_name_firstn. reflexivity.
  - intros Hne Hl. unfold _encode_name.
    rewrite padded_name_spaces by assumption. reflexivity.
Qed.

Lemma encode_canonical_witness :
  _encode_name (firstn 15 (lit "AVERYLONGHOSTNAME01")) 0x20 None
  = _encode_name (lit "AVERYLONGHOSTNAME01") 0x20 None
  /\
  _encode_name (lit "HOST" ++ repeat 32%N 3) 0x20 None
  = _encode_name (lit "HOST") 0x20 None.
Proof.
  split.
  - exact (proj1 (encode_canonical (lit "AVERYLONGHOSTNAME01") 0x20 None 0)).
  - refine (proj2 (encode_canonical (lit "HOST") 0x20 None 3) _ _).
    + discriminate.
    + cbn. lia.
Defined.

(** ** Further properties of the query builder and the decoder *)

Lemma pack_H_range_error (v : Z) :
  ~ 0 <= v <= 0xFFFF -> pack_H v = Raise StructError.
Proof.
  intros Hv. unfold pack_H.
  destruct (0 <=? v) eqn:E0; [|reflexivity].
  destruct (v <=? 0xFFFF) eqn:E1; [|reflexivity].
  apply Z.leb_le in E0, E1. lia.
Qed.

(** X5.  The builder returns a 50-byte datagram for an id that fits 16 bits,
    and raises struct.error for any other id. *)
Theorem prepare_outcome (t : Z) (b : bool) :
  (0 <= t <= 0xFFFF ->
   exists data, _prepare_net_name_query t b = Ok data /\ len data = 50)
  /\
  (~ 0 <= t <= 0xFFFF -> _prepare_net_name_query t b = Raise StructError).
Proof.
  split.
  - intros Ht. destruct (prepare_layout t b Ht) as (hi & lo & _ & _ & E).
    eexists. split; [exact E|]. reflexivity.
  - intros Ht. unfold _prepare_net_name_query, HEADER_STRUCT_FORMAT.
    cbn [pack]. rewrite (pack_H_range_error t Ht). reflexivity.
Qed.

Lemma prepare_outcome_witness :
  (exists data, _prepare_net_name_query 0x1234 true = Ok data /\ len data = 50)
  /\ _prepare_net_name_query 0x10000 true = Raise StructError.
Proof.
  split.
  - refine (proj1 (prepare_outcome 0x1234 true) _). lia.
  - refine (proj2 (prepare_outcome 0x10000 true) _). lia.
Defined.

(** The query datagram is too short to be decoded as a reply. *)
Lemma decode_own_query (t : Z) (b : bool) (data : bytes) :
  _prepare_net_name_query t b = Ok data ->
  _decode_ip_query_packet data = Raise IndexError.
Proof.
  intros E.
  destruct (Z_le_dec 0 t) as [H0|H0];
    [destruct (Z_le_dec t 0xFFFF) as [H1|H1]|].
  - destruct (prepare_layout t b (conj H0 H1)) as (hi & lo & _ & _ & E').
    rewrite E in E'. injection E' as ->.
    rewrite decode_body by (cbn; lia).
    rewrite getitem_past_end by (cbn; lia). reflexivity.
  - unfold _prepare_net_name_query, HEADER_STRUCT_FORMAT in E.
    cbn [pack] in E.
    rewrite (pack_H_range_error t) in E by lia. discriminate.
  - unfold _prepare_net_name_query, HEADER_STRUCT_FORMAT in E.
    cbn [pack] in E.
    rewrite (pack_H_range_error t) in E by lia. discriminate.
Qed.

Lemma getitem_raises {A} (l : list A) (i : Z) (e : exn) :
  getitem l i = Raise e -> e = IndexError.
Proof.
  unfold getitem. destruct (_ <? 0); [congruence|].
  destruct (nth_error _ _); congruence.
Qed.

Lemma getitem_ok_inv {A} (l : list A) (i : Z) (x d : A) :
  0 <= i -> getitem l i = Ok x ->
  i < len l /\ x = nth (Z.to_nat i) l d.
Proof.
  intros Hi E.
  destruct (Z_lt_le_dec i (len l)) as [Hlt|Hge].
  - rewrite (getitem_in_range l i d) in E by lia. injection E as <-. auto.
  - rewrite getitem_past_end in E by assumption. discriminate.
Qed.

Lemma str_ascii_inv (b : bytes) (s : str) :
  str_ascii b = Ok s -> s = chars_of_bytes b /\ ascii_bytes b.
Proof.
  revert s. induction b as [|x b IH]; intros s E; cbn [str_ascii] in E.
  - injection E as <-. split; [reflexivity|constructor].
  - destruct (Byte.to_N x <? 128)%N eqn:Ex; [|discriminate].
    destruct (str_ascii b) as [t|]; cbn [bind] in E; [|discriminate].
    injection E as <-. destruct (IH t eq_refl) as [-> Hb].
    split; [reflexivity|]. constructor; [|exact Hb].
    apply N.ltb_lt in Ex. unfold int_of_byte. lia.
Qed.

Lemma decode_names_raises (data : bytes) (n : nat) :
  forall (offset : Z) (ret : list (str * Z)) (e : exn),
    decode_names data n offset ret = Raise e ->
    e = IndexError \/ e = UnicodeDecodeError.
Proof.
  induction n as [|n IH]; intros offset ret e E; cbn [decode_names] in E;
    [discriminate|].
  destruct (str_ascii _) as [name|e1] eqn:En; cbn [bind] in E.
  - destruct (getitem data (offset + 15)) as [ty|e2] eqn:Eg; cbn [bind] in E.
    + eapply IH. exact E.
    + injection E as <-. left. eapply getitem_raises. exact Eg.
  - injection E as <-. right. eapply str_ascii_raises. exact En.
Qed.

(** X6.  The decoder's exceptions: the bare Exception exactly on a buffer of
    fewer than 12 bytes; past the header only IndexError (the buffer
    ends early) and UnicodeDecodeError (a name byte above 0x7F).  The
    header itself never fails to unpack. *)
Theorem decode_errors (data : bytes) :
  (len data < 12 <-> _decode_ip_query_packet data = Raise Exception)
  /\
  (forall e, _decode_ip_query_packet data = Raise e ->
             e = Exception \/ e = IndexError \/ e = UnicodeDecodeError).
Proof.
  destruct (Z_lt_le_dec (len data) 12) as [Hs|Hl].
  - rewrite (decode_short_header data Hs). split.
    + split; auto.
    + intros e [= <-]. auto.
  - assert (Hrest : forall e, _decode_ip_query_packet data = Raise e ->
                              e = IndexError \/ e = UnicodeDecodeError).
    { intros e E. rewrite decode_body in E by assumption.
      destruct (getitem data 56) as [b|e1] eqn:Eg; cbn [bind] in E.
      - destruct (int_of_byte b >? 0); [|discriminate].
        destruct (decode_names _ _ _ _) as [ret|e2] eqn:Ed; cbn [bind] in E;
          [discriminate|].
        injection E as <-. eapply decode_names_raises. exact Ed.
      - injection E as <-. left. eapply getitem_raises. exact Eg. }
    split.
    + split; [lia|]. intros E. destruct (Hrest _ E); discriminate.
    + intros e E. right. apply Hrest. exact E.
Qed.

Lemma dropwhile_head {A} (p : A -> bool) (l : list A) (x : A) (r : list A) :
  dropwhile p l = x :: r -> p x = false.
Proof.
  induction l as [|y l IH]; cbn [dropwhile]; [discriminate|].
  destruct (p y) eqn:Ey; [exact IH|].
  intros [= <- _]. exact Ey.
Qed.

Lemma dropwhile_suffix {A} (p : A -> bool) (l : list A) :
  exists front, l = front ++ dropwhile p l.
Proof.
  induction l as [|y l [front IH]]; cbn [dropwhile]; [exists []; reflexivity|].
  destruct (p y).
  - exists (y :: front). cbn [app]. f_equal. exact IH.
  - exists []. reflexivity.
Qed.

Lemma rstrip_prefix (b : bytes) : exists tail, b = rstrip b ++ tail.
Proof.
  unfold rstrip.
  destruct (dropwhile_suffix is_space (rev b)) as [front E].
  exists (rev front).
  rewrite <- rev_app_distr, <- E, rev_involutive. reflexivity.
Qed.

Lemma strip_head (b : bytes) (x : byte) (r : bytes) :
  strip b = x :: r -> is_space x = false.
Proof.
  unfold strip. intros E.
  destruct (rstrip_prefix (lstrip b)) as [tail Et].
  rewrite E in Et. unfold lstrip in Et.
  eapply dropwhile_head. exact Et.
Qed.

Lemma strip_last (b : bytes) (front : bytes) (x : byte) :
  strip b = front ++ [x] -> is_space x = false.
Proof.
  unfold strip, rstrip. intros E.
  apply (f_equal (@rev byte)) in E.
  rewrite rev_involutive, rev_app_distr in E. cbn [rev app] in E.
  eapply dropwhile_head. exact E.
Qed.

Lemma dropwhile_length {A} (p : A -> bool) (l : list A) :
  (List.length (dropwhile p l) <= List.length l)%nat.
Proof.
  destruct (dropwhile_suffix p l) as [front E].
  rewrite E at 2. rewrite length_app. lia.
Qed.

Lemma strip_length (b : bytes) : len (strip b) <= len b.
Proof.
  unfold strip, rstrip, lstrip, len. rewrite length_rev.
  pose proof (dropwhile_length is_space (rev (dropwhile is_space b))).
  pose proof (dropwhile_length is_space b).
  rewrite length_rev in *. lia.
Qed.

Lemma entry_name_length (data : bytes) (i : nat) :
  len (entry_name data i) <= 15.
Proof.
  unfold entry_name, slice, len.
  pose proof (firstn_le_length
                (Z.to_nat (entry_offset i + 15 - entry_offset i))
                (skipn (Z.to_nat (entry_offset i)) data)).
  lia.
Qed.

Lemma record_trimmed (data : bytes) (i : nat) :
  ascii_bytes (strip (entry_name data i)) ->
  trimmed_name (fst (record_at data i)) /\
  0 <= snd (record_at data i) <= 255.
Proof.
  intros Ha. unfold record_at. cbn [fst snd]. split.
  - unfold trimmed_name. repeat split.
    + pose proof (strip_length (entry_name data i)).
      pose proof (entry_name_length data i).
      unfold len, chars_of_bytes in *. rewrite length_map. lia.
    + unfold ascii_str, chars_of_bytes, ascii_bytes in *.
      apply Forall_map. eapply Forall_impl; [|exact Ha].
      intros x Hx. unfold int_of_byte in Hx. cbn beta in Hx. lia.
    + intros c rest E. unfold chars_of_bytes in E.
      destruct (strip (entry_name data i)) as [|x r] eqn:Es; [discriminate|].
      cbn [map] in E. injection E as <- _.
      exact (strip_head _ _ _ Es).
    + intros front c E. unfold chars_of_bytes in E.
      apply map_eq_app in E. destruct E as (bf & bl & Es & _ & El).
      destruct bl as [|x [|y bl]]; try discriminate.
      cbn [map] in El. injection El as <-.
      exact (strip_last _ _ _ Es).
  - apply int_of_byte_range.
Qed.

(** The loop read backwards: what it returns is what it was given plus
    the records of the entries it passed, the buffer reached the type
    byte of the last one, and every stripped name was ASCII. *)
Lemma decode_names_inv (data : bytes) (n : nat) :
  forall (i0 : nat) (ret out : list (str * Z)),
    decode_names data n (entry_offset i0) ret = Ok out ->
    out = ret ++ map (record_at data) (seq i0 n) /\
    ((0 < n)%nat -> entry_offset (i0 + n) - 2 <= len data) /\
    (forall i, (i0 <= i < i0 + n)%nat ->
               ascii_bytes (strip (entry_name data i))).
Proof.
  induction n as [|n IH]; intros i0 ret out E; cbn [decode_names] in E.
  - injection E as <-. cbn [seq map]. rewrite app_nil_r.
    split; [reflexivity|]. split; intros; lia.
  - fold (entry_name data i0) in E.
    destruct (str_ascii (strip (entry_name data i0))) as [name|] eqn:En;
      cbn [bind] in E; [|discriminate].
    apply str_ascii_inv in En. destruct En as [-> Ha].
    destruct (getitem data (entry_offset i0 + 15)) as [ty|] eqn:Eg;
      cbn [bind] in E; [|discriminate].
    apply (getitem_ok_inv _ _ _ x00) in Eg;
      [|unfold entry_offset; lia].
    destruct Eg as [Hlt ->]. fold (entry_type data i0) in E.
    rewrite <- entry_offset_S in E.
    fold (record_at data i0) in E.
    destruct (IH _ _ _ E) as (-> & Hlen & Hasc).
    split; [|split].
    + cbn [seq map]. rewrite <- app_assoc. reflexivity.
    + intros _. destruct n as [|n'].
      * unfold entry_offset in *. lia.
      * replace (i0 + S (S n'))%nat with (S i0 + S n')%nat by lia.
        apply Hlen. lia.
    + intros i Hi. destruct (Nat.eq_dec i i0) as [->|Hne]; [exact Ha|].
      apply Hasc. lia.
Qed.

(** X7.  What the decoder returns.  The id is the big-endian word of the first
    two bytes; the buffer held the count byte; with a count of 0 there is
    no list, and otherwise the list has one record per counted entry
    (1 to 255 of them, never an empty list), the buffer reached the type
    byte of the last entry, and every name is at most 15 ASCII characters
    with no whitespace at either end, every type a byte. *)
Theorem decode_result (data : bytes) (t : Z) (r : option (list (str * Z))) :
  _decode_ip_query_packet data = Ok (t, r) ->
  t = trn_id_of data /\ 0 <= t <= 0xFFFF /\ 57 <= len data /\
  match r with
  | None => numnames_of data = 0
  | Some recs =>
      1 <= numnames_of data <= 255 /\
      55 + 18 * numnames_of data <= len data /\
      recs = map (record_at data) (seq 0 (Z.to_nat (numnames_of data))) /\
      len recs = numnames_of data /\
      Forall (fun rec => trimmed_name (fst rec) /\ 0 <= snd rec <= 255) recs
  end.
Proof.
  intros E.
  destruct (Z_lt_le_dec (len data) 12) as [Hs|Hl].
  { rewrite decode_short_header in E by assumption. discriminate. }
  assert (H57 : 57 <= len data).
  { destruct (Z_lt_le_dec (len data) 57) as [Hlt|Hge]; [|exact Hge].
    rewrite decode_body, getitem_past_end in E by lia. discriminate. }
  rewrite decode_complete in E by assumption.
  pose proof (int_of_byte_range (nth 56 data x00)) as Hk.
  fold (numnames_of data) in Hk.
  assert (Hid : 0 <= trn_id_of data <= 0xFFFF).
  { unfold trn_id_of.
    pose proof (int_of_byte_range (nth 0 data x00)).
    pose proof (int_of_byte_range (nth 1 data x00)). lia. }
  destruct (numnames_of data >? 0) eqn:Ek.
  - apply Z.gtb_lt in Ek.
    destruct (decode_names _ _ _ _) as [recs|] eqn:Ed; cbn [bind] in E;
      [|discriminate].
    injection E as <- <-.
    apply decode_names_inv in Ed. cbn [app] in Ed.
    destruct Ed as (-> & Hlen & Hasc).
    repeat split; try lia.
    + specialize (Hlen ltac:(lia)). unfold entry_offset in Hlen. lia.
    + unfold len. rewrite length_map, length_seq. lia.
    + apply Forall_map, Forall_forall. intros i Hi. apply in_seq in Hi.
      apply record_trimmed, Hasc. lia.
  - injection E as <- <-.
    assert (numnames_of data <= 0)
      by (destruct (Z.gtb_spec (numnames_of data) 0); [discriminate|lia]).
    repeat split; lia.
Qed.

Lemma decode_result_witness :
  0x1234 = trn_id_of reply_workstation /\ 0 <= 0x1234 <= 0xFFFF /\
  57 <= len reply_workstation /\
  1 <= numnames_of reply_workstation <= 255 /\
  55 + 18 * numnames_of reply_workstation <= len reply_workstation /\
  [(lit "WORKSTATION", 0x20)]
  = map (record_at reply_workstation)
      (seq 0 (Z.to_nat (numnames_of reply_workstation))) /\
  len [(lit "WORKSTATION", 0x20)] = numnames_of reply_workstation /\
  Forall (fun rec => trimmed_name (fst rec) /\ 0 <= snd rec <= 255)
    [(lit "WORKSTATION", 0x20)].
Proof.
  exact (decode_result reply_workstation 0x1234
           (Some [(lit "WORKSTATION", 0x20)]) eq_refl).
Defined.

Lemma getitem_app_tail {A} (hd body : list A) (i : Z) :
  len hd <= i -> getitem (hd ++ body) i = getitem body (i - len hd).
Proof.
  intros Hi. pose proof (len_nonneg hd) as Hh. unfold getitem.
  destruct (i <? 0) eqn:E1; [apply Z.ltb_lt in E1; lia|].
  destruct (i - len hd <? 0) eqn:E2; [apply Z.ltb_lt in E2; lia|].
  rewrite E1, E2. unfold len in *.
  rewrite nth_error_app2 by lia.
  replace (Z.to_nat i - List.length hd)%nat
    with (Z.to_nat (i - Z.of_nat (List.length hd))) by lia.
  reflexivity.
Qed.

Lemma slice_app_tail {A} (hd body : list A) (a b : Z) :
  len hd <= a -> slice (hd ++ body) a b = slice body (a - len hd) (b - len hd).
Proof.
  intros Ha. pose proof (len_nonneg hd) as Hh. unfold slice, len in *.
  rewrite skipn_app.
  rewrite (skipn_all2 hd) by lia. cbn [app].
  replace (Z.to_nat a - List.length hd)%nat
    with (Z.to_nat (a - Z.of_nat (List.length hd))) by lia.
  f_equal. lia.
Qed.

Lemma decode_names_app_tail (hd1 hd2 body : bytes) (n : nat) :
  len hd1 = len hd2 ->
  forall (offset : Z) (ret : list (str * Z)),
    len hd1 <= offset ->
    decode_names (hd1 ++ body) n offset ret
    = decode_names (hd2 ++ body) n offset ret.
Proof.
  intros Hh. induction n as [|n IH]; intros offset ret Ho; [reflexivity|].
  cbn [decode_names].
  rewrite !slice_app_tail, !getitem_app_tail by lia. rewrite Hh.
  destruct (str_ascii _); cbn [bind]; [|reflexivity].
  destruct (getitem body _); cbn [bind]; [|reflexivity].
  apply IH. lia.
Qed.

(** X8.  What the decoder does not look at: bytes 2 to 55 of the buffer (the
    flags word with its response bit, opcode and rcode, the four counts
    and the fixed part of the answer record).  Two buffers that agree on
    the transaction id and from offset 56 on decode alike. *)
Theorem decode_ignores_preamble (id1 id2 : byte) (pre1 pre2 body : bytes) :
  len pre1 = 54 -> len pre2 = 54 ->
  _decode_ip_query_packet ([id1; id2] ++ pre1 ++ body)
  = _decode_ip_query_packet ([id1; id2] ++ pre2 ++ body).
Proof.
  intros H1 H2.
  change ([id1; id2] ++ pre1 ++ body) with (([id1; id2] ++ pre1) ++ body).
  change ([id1; id2] ++ pre2 ++ body) with (([id1; id2] ++ pre2) ++ body).
  set (hd1 := [id1; id2] ++ pre1). set (hd2 := [id1; id2] ++ pre2).
  assert (L1 : len hd1 = 56) by (unfold hd1; rewrite len_app, H1; reflexivity).
  assert (L2 : len hd2 = 56) by (unfold hd2; rewrite len_app, H2; reflexivity).
  pose proof (len_nonneg body).
  rewrite !decode_body by (rewrite len_app; lia).
  rewrite !getitem_app_tail by lia. rewrite L1, L2.
  assert (Hid : trn_id_of (hd1 ++ body) = trn_id_of (hd2 ++ body))
    by reflexivity.
  rewrite Hid.
  destruct (getitem body (56 - 56)) as [b|]; cbn [bind]; [|reflexivity].
  destruct (int_of_byte b >? 0); [|reflexivity].
  rewrite (decode_names_app_tail hd1 hd2 body) by (unfold entry_offset; lia).
  reflexivity.
Qed.

Lemma decode_ignores_preamble_witness :
  _decode_ip_query_packet
    ([x12; x34] ++ ([x84; x00] ++ repeat x00 52)
       ++ skipn 56 reply_workstation)
  = _decode_ip_query_packet
      ([x12; x34] ++ ([x01; x13] ++ repeat xff 52)
         ++ skipn 56 reply_workstation).
Proof.
  refine (decode_ignores_preamble x12 x34 _ _ _ _ _); reflexivity.
Defined.

(** ** Further properties of the exchange *)

Lemma prepare_length (t : Z) (b : bool) (data : bytes) :
  _prepare_net_name_query t b = Ok data -> len data = 50.
Proof.
  intros E.
  destruct (Z_le_dec 0 t) as [H0|H0];
    [destruct (Z_le_dec t 0xFFFF) as [H1|H1]|].
  - destruct (prepare_layout t b (conj H0 H1)) as (hi & lo & _ & _ & E').
    rewrite E in E'. injection E' as ->. reflexivity.
  - unfold _prepare_net_name_query, HEADER_STRUCT_FORMAT in E.
    cbn [pack] in E.
    rewrite (pack_H_range_error t) in E by lia. discriminate.
  - unfold _prepare_net_name_query, HEADER_STRUCT_FORMAT in E.
    cbn [pack] in E.
    rewrite (pack_H_range_error t) in E by lia. discriminate.
Qed.

Section ExchangeMore.

Variable time : Type.
Variable time_add : time -> time -> time.
Variable time_geb : time -> time -> bool.

(** X10.  A transport failure before the deadline ends the exchange, also
    after replies skipped for their id: an error of [recvfrom] reaches
    the caller as it is, and an empty datagram raises NameError, the
    name NotConnectedError being defined nowhere. *)
Theorem poll_transport_failure (wait_trn_id : Z) (timeout : time)
  (env : environment time) (sk : list (round time)) (r : round time)
  (rest : list (round time)) :
  script env = sk ++ r :: rest ->
  Forall (skipped time_geb wait_trn_id (time_add (now env) timeout)) sk ->
  time_geb (clock r) (time_add (now env) timeout) = false ->
  (forall errno,
      wait r = Ready (RecvError errno) ->
      _poll_for_query_packet time_add time_geb wait_trn_id timeout env
      = Raised (OSError errno))
  /\
  (wait r = Ready (Datagram []) ->
   _poll_for_query_packet time_add time_geb wait_trn_id timeout env
   = Raised NameError).
Proof.
  intros Hs Hsk Ht. unfold _poll_for_query_packet. rewrite Hs.
  rewrite poll_loop_skip by assumption. cbn [poll_loop]. unfold poll_body.
  rewrite Ht. split.
  - intros errno Hw. rewrite Hw. reflexivity.
  - intros Hw. rewrite Hw. reflexivity.
Qed.

(** X11.  A list that [query_ip_for_name] returns is made of the names of the
    type-0x20 records of a reply that arrived before the deadline and
    decoded with the transaction id of this call. *)
Theorem query_returns_from_matching_reply (self : NetBIOS) (ip : str)
  (port : Z) (timeout : time) (env : environment time) (names : list str) :
  snd (query_ip_for_name time_add time_geb self ip port timeout env)
  = Returned (Some names) ->
  exists r data recs,
    In r (script env) /\
    time_geb (clock r) (time_add (now env) timeout) = false /\
    wait r = Ready (Datagram data) /\
    _decode_ip_query_packet data = Ok (randint env, Some recs) /\
    names = server_names recs.
Proof.
  unfold query_ip_for_name, _write.
  destruct (sock self); cbn [negb]; [|discriminate].
  destruct (_prepare_net_name_query (randint env) false) as [d|];
    [|discriminate].
  destruct (sendto_error env); cbn [snd]; [discriminate|].
  destruct (_poll_for_query_packet _ _ _ _ _) as [ret| |] eqn:Ep;
    try discriminate.
  destruct ret as [[|rec recs]|]; cbn [truthy]; try discriminate.
  intros [= <-].
  destruct (poll_loop_returns _ _ _ _ _ _ Ep) as (r & data & Hin & Ht & Hw & Hd).
  exists r, data, (rec :: recs). auto.
Qed.

(** X12.  The datagram that [query_ip_for_name] sends, coming back to its own
    socket (a broadcast echoed), ends the call with IndexError: it has
    the awaited id but is too short to be decoded as a reply. *)
Theorem query_echo_raises (self : NetBIOS) (ip : str) (port : Z)
  (timeout : time) (env : environment time) (sk : list (round time))
  (r : round time) (rest : list (round time)) (data : bytes) :
  sock self = true ->
  sendto_error env = None ->
  script env = sk ++ r :: rest ->
  Forall (skipped time_geb (randint env) (time_add (now env) timeout)) sk ->
  time_geb (clock r) (time_add (now env) timeout) = false ->
  fst (query_ip_for_name time_add time_geb self ip port timeout env)
  = [mk_sendto data ip port] ->
  wait r = Ready (Datagram data) ->
  snd (query_ip_for_name time_add time_geb self ip port timeout env)
  = Raised IndexError.
Proof.
  intros Hs Hsend Hscript Hsk Ht Hsent Hw.
  unfold query_ip_for_name, _write in *. rewrite Hs, Hsend in *.
  cbn [negb] in *.
  destruct (_prepare_net_name_query (randint env) false) as [d|] eqn:Ed;
    [|discriminate].
  cbn [fst snd] in *. injection Hsent as ->.
  pose proof (decode_own_query _ _ _ Ed) as Hdec.
  unfold _poll_for_query_packet. rewrite Hscript.
  rewrite poll_loop_skip by assumption.
  assert (Hl : (len data =? 0) = false).
  { apply Z.eqb_neq. intros H0.
    rewrite decode_short_header in Hdec by lia. discriminate. }
  rewrite (poll_loop_decode_error _ _ _ _ _ _ _ _ Ht Hw Hl Hdec).
  reflexivity.
Qed.

(** X13.  One call makes at most one [sendto], to the address it was given and
    with a 50-byte datagram, whatever the environment does; on a closed
    instance it makes none and raises AssertionError. *)
Theorem query_sends_at_most_once (self : NetBIOS) (ip : str) (port : Z)
  (timeout : time) (env : environment time) :
  (List.length
     (fst (query_ip_for_name time_add time_geb self ip port timeout env))
   <= 1)%nat
  /\
  (forall c,
      In c (fst (query_ip_for_name time_add time_geb self ip port
                   timeout env)) ->
      sent_ip c = ip /\ sent_port c = port /\ len (sent_data c) = 50 /\
      _prepare_net_name_query (randint env) false = Ok (sent_data c))
  /\
  (sock self = false ->
   query_ip_for_name time_add time_geb self ip port timeout env
   = ([], Raised AssertionError)).
Proof.
  unfold query_ip_for_name, _write.
  destruct (sock self); cbn [negb].
  - destruct (_prepare_net_name_query (randint env) false) as [d|] eqn:Ed.
    + pose proof (prepare_length _ _ _ Ed) as Hlen.
      destruct (sendto_error env); cbn [fst List.length].
      * split; [lia|]. split; [|discriminate].
        intros c [<-|[]]. cbn. auto.
      * split; [lia|]. split; [|discriminate].
        intros c [<-|[]]. cbn. auto.
    + cbn [fst List.length]. split; [lia|]. split; [|discriminate].
      intros c [].
  - cbn [fst List.length]. split; [lia|]. split; [intros c []|reflexivity].
Qed.

(** X14.  When [sendto] raises, the call raises the same error and the socket
    is never polled: the outcome does not depend on the script. *)
Theorem query_send_failure (self : NetBIOS) (ip : str) (port : Z)
  (timeout : time) (env : environment time) (errno : Z) :
  sock self = true -> 0 <= randint env <= 0xFFFF ->
  sendto_error env = Some errno ->
  forall rounds,
    snd (query_ip_for_name time_add time_geb self ip port timeout
           (with_script env rounds))
    = Raised (OSError errno).
Proof.
  intros Hs Hr Hsend rounds.
  destruct (prepare_layout (randint env) false Hr) as (hi & lo & _ & _ & E).
  unfold query_ip_for_name, _write, with_script. cbn [randint sendto_error].
  rewrite Hs, E, Hsend. reflexivity.
Qed.

(** X15.  A matching reply none of whose records has type 0x20 gives the empty
    list, not None. *)
Theorem query_empty_list (self : NetBIOS) (ip : str) (port : Z)
  (timeout : time) (env : environment time) (sk : list (round time))
  (r : round time) (rest : list (round time)) (data : bytes)
  (recs : list (str * Z)) :
  sock self = true -> 0 <= randint env <= 0xFFFF ->
  sendto_error env = None ->
  script env = sk ++ r :: rest ->
  Forall (skipped time_geb (randint env) (time_add (now env) timeout)) sk ->
  time_geb (clock r) (time_add (now env) timeout) = false ->
  wait r = Ready (Datagram data) ->
  _decode_ip_query_packet data = Ok (randint env, Some recs) ->
  Forall (fun rec => snd rec <> 0x20) recs ->
  snd (query_ip_for_name time_add time_geb self ip port timeout env)
  = Returned (Some []).
Proof.
  intros Hs Hr Hsend Hscript Hsk Ht Hw Hd Hty.
  destruct (query_unfold _ time_add time_geb self ip port timeout env Hs Hr)
    as (d & _ & _ & Hq).
  rewrite (Hq Hsend). unfold _poll_for_query_packet. rewrite Hscript.
  rewrite poll_loop_skip by assumption.
  rewrite (poll_loop_matched _ _ _ _ _ _ _ _ Ht Hw Hd).
  pose proof (decode_some_nonempty _ _ _ Hd) as Hne.
  destruct recs as [|rec recs]; [congruence|]. cbn [truthy records_of].
  do 2 f_equal. unfold server_names.
  assert (Hf : forall l : list (str * Z),
             Forall (fun rec => snd rec <> 0x20) l ->
             filter (fun s => snd s =? TYPE_SERVER) l = []).
  { induction 1 as [|x l Hx Hl IH]; [reflexivity|].
    cbn [filter]. apply Z.eqb_neq in Hx. unfold TYPE_SERVER.
    rewrite Hx. exact IH. }
  rewrite (Hf _ Hty). reflexivity.
Qed.

(** X16.  Closing.  [close] returns only on an open instance whose socket
    closes without error; the instance it leaves keeps its [broadcast]
    attribute, sends nothing and raises AssertionError when queried, and
    raises AttributeError when closed again. *)
Theorem close_lifecycle (self self' : NetBIOS) (close_error : option Z) :
  close self close_error = Ok self' ->
  sock self = true /\ close_error = None /\
  sock self' = false /\ broadcast self' = broadcast self /\
  (forall ip port timeout env,
      query_ip_for_name time_add time_geb self' ip port timeout env
      = ([], Raised AssertionError)) /\
  (forall close_error', close self' close_error' = Raise AttributeError).
Proof.
  unfold close. destruct (sock self) eqn:Hs; [|discriminate].
  destruct close_error as [e|]; [discriminate|].
  intros [= <-]. repeat split.
Qed.

End ExchangeMore.

(** ** The further properties on the sample script *)

Lemma poll_transport_failure_witness :
  _poll_for_query_packet Z.add Z.geb 0x1234 30
    (sample_env [mk_round 1 (Ready (Datagram reply_other_id));
                 mk_round 2 (Ready (RecvError 104))])
  = Raised (OSError 104)
  /\
  _poll_for_query_packet Z.add Z.geb 0x1234 30
    (sample_env [mk_round 1 (Ready (Datagram reply_other_id));
                 mk_round 2 (Ready (Datagram []))])
  = Raised NameError.
Proof.
  split.
  - refine (proj1 (poll_transport_failure Z Z.add Z.geb 0x1234 30
                     (sample_env _)
                     [mk_round 1 (Ready (Datagram reply_other_id))]
                     (mk_round 2 (Ready (RecvError 104))) []
                     eq_refl sample_first_skipped eq_refl) 104 eq_refl).
  - refine (proj2 (poll_transport_failure Z Z.add Z.geb 0x1234 30
                     (sample_env _)
                     [mk_round 1 (Ready (Datagram reply_other_id))]
                     (mk_round 2 (Ready (Datagram []))) []
                     eq_refl sample_first_skipped eq_refl) eq_refl).
Defined.

Lemma query_returns_from_matching_reply_witness :
  exists r data recs,
    In r sample_rounds /\
    Z.geb (clock r) (0 + 30) = false /\
    wait r = Ready (Datagram data) /\
    _decode_ip_query_packet data = Ok (0x1234, Some recs) /\
    [lit "WORKSTATION"] = server_names recs.
Proof.
  exact (query_returns_from_matching_reply Z Z.add Z.geb
           (mk_NetBIOS true true) [] 137 30 (sample_env sample_rounds)
           [lit "WORKSTATION"] eq_refl).
Defined.

Lemma query_echo_raises_witness :
  snd (query_ip_for_name Z.add Z.geb (mk_NetBIOS true true) [] 137 30
         (sample_env
            [mk_round 1
               (Ready (Datagram
                         (query_header x12 x34 false ++ wildcard_name
                            ++ question_tail)))]))
  = Raised IndexError.
Proof.
  refine (query_echo_raises Z Z.add Z.geb (mk_NetBIOS true true) [] 137 30
            (sample_env
               [mk_round 1
                  (Ready (Datagram
                            (query_header x12 x34 false ++ wildcard_name
                               ++ question_tail)))])
            []
            (mk_round 1
               (Ready (Datagram
                         (query_header x12 x34 false ++ wildcard_name
                            ++ question_tail))))
            []
            (query_header x12 x34 false ++ wildcard_name ++ question_tail)
            eq_refl eq_refl eq_refl (Forall_nil _) eq_refl eq_refl eq_refl).
Defined.

Lemma query_send_failure_witness :
  snd (query_ip_for_name Z.add Z.geb (mk_NetBIOS true true) [] 137 30
         (with_script (mk_environment 0x1234 (Some 101) 0 []) sample_rounds))
  = Raised (OSError 101).
Proof.
  refine (query_send_failure Z Z.add Z.geb (mk_NetBIOS true true) [] 137 30
            (mk_environment 0x1234 (Some 101) 0 []) 101 eq_refl _ eq_refl
            sample_rounds).
  cbn. lia.
Defined.

Lemma query_empty_list_witness :
  snd (query_ip_for_name Z.add Z.geb (mk_NetBIOS true true) [] 137 30
         (sample_env
            [mk_round 1
               (Ready (Datagram
                         (reply x01 (blit "WORKGROUP      "
                                       ++ [x00; x84; x00]))))]))
  = Returned (Some []).
Proof.
  refine (query_empty_list Z Z.add Z.geb (mk_NetBIOS true true) [] 137 30
            (sample_env
               [mk_round 1
                  (Ready (Datagram
                            (reply x01 (blit "WORKGROUP      "
                                          ++ [x00; x84; x00]))))])
            []
            (mk_round 1
               (Ready (Datagram
                         (reply x01 (blit "WORKGROUP      "
                                       ++ [x00; x84; x00])))))
            []
            (reply x01 (blit "WORKGROUP      " ++ [x00; x84; x00]))
            [(lit "WORKGROUP", 0)]
            eq_refl _ eq_refl eq_refl (Forall_nil _) eq_refl eq_refl
            eq_refl _).
  - cbn. lia.
  - constructor; [discriminate|constructor].
Defined.

Lemma close_lifecycle_witness :
  sock (mk_NetBIOS true true) = true /\ @None Z = None /\
  sock (mk_NetBIOS true false) = false /\
  broadcast (mk_NetBIOS true false) = broadcast (mk_NetBIOS true true) /\
  (forall ip port timeout env,
      query_ip_for_name Z.add Z.geb (mk_NetBIOS true false) ip port
        timeout env
      = ([], Raised AssertionError)) /\
  (forall close_error',
      close (mk_NetBIOS true false) close_error' = Raise AttributeError).
Proof.
  exact (close_lifecycle Z Z.add Z.geb (mk_NetBIOS true true)
           (mk_NetBIOS true false) None eq_refl).
Defined.

(** ** Replies laid out entry by entry *)

Lemma dropwhile_spaces (k : nat) (l : bytes) :
  dropwhile is_space (repeat x20 k ++ l) = dropwhile is_space l.
Proof.
  induction k as [|k IH]; [reflexivity|]. cbn [repeat app dropwhile].
  change (is_space x20) with true. cbn iota. exact IH.
Qed.

Lemma dropwhile_stop {A} (p : A -> bool) (l : list A) :
  (forall x r, l = x :: r -> p x = false) -> dropwhile p l = l.
Proof.
  destruct l as [|x r]; [reflexivity|]. intros Hh. cbn [dropwhile].
  rewrite (Hh x r eq_refl). reflexivity.
Qed.

(** Stripping undoes the space padding of a trimmed name. *)
Lemma strip_padded (b : bytes) (k : nat) :
  trimmed_bytes b -> strip (b ++ repeat x20 k) = b.
Proof.
  intros (_ & _ & Hhead & Hlast). unfold strip, lstrip, rstrip.
  destruct b as [|x r].
  - cbn [app]. rewrite <- (app_nil_r (repeat x20 k)), dropwhile_spaces.
    reflexivity.
  - cbn [app dropwhile]. rewrite (Hhead x r eq_refl).
    change (x :: r ++ repeat x20 k) with ((x :: r) ++ repeat x20 k).
    rewrite rev_app_distr, rev_repeat, dropwhile_spaces.
    rewrite dropwhile_stop; [apply rev_involutive|].
    intros y t E. apply (Hlast (rev t) y).
    rewrite <- (rev_involutive (x :: r)), E. reflexivity.
Qed.

Lemma padded_length (b : bytes) :
  len b <= 15 -> List.length (b ++ repeat x20 (15 - List.length b)) = 15%nat.
Proof.
  unfold len. intros Hb. rewrite length_app, repeat_length. lia.
Qed.

Lemma entry_bytes_length (e : name_entry) :
  len (e_name e) <= 15 -> len (entry_bytes e) = 18.
Proof.
  intros Hb. unfold entry_bytes. rewrite app_assoc, len_app. unfold len.
  rewrite padded_length by exact Hb. reflexivity.
Qed.

Lemma decode_names_entries (es : list name_entry) :
  forall (pre tail : bytes) (ret : list (str * Z)),
    Forall (fun e => trimmed_bytes (e_name e)) es ->
    decode_names (pre ++ flat_map entry_bytes es ++ tail) (List.length es)
      (len pre) ret
    = Ok (ret ++ map entry_record es).
Proof.
  induction es as [|e es IH]; intros pre tail ret Hes.
  - cbn [List.length decode_names map]. rewrite app_nil_r. reflexivity.
  - inversion Hes as [|e' es' He Hes' Eq]. subst e' es'.
    pose proof He as (Hlen & Hascii & _).
    cbn [List.length decode_names flat_map].
    set (padded := e_name e ++ repeat x20 (15 - List.length (e_name e))).
    assert (Hp : List.length padded = 15%nat) by (apply padded_length; exact Hlen).
    assert (Ex : entry_bytes e
                 = padded ++ [e_type e; e_flags1 e; e_flags2 e]).
    { unfold entry_bytes, padded. rewrite <- app_assoc. reflexivity. }
    rewrite Ex, <- !app_assoc.
    rewrite slice_app_tail by lia.
    replace (len pre - len pre) with 0 by lia.
    replace (len pre + 15 - len pre) with 15 by lia.
    assert (Es : forall rest, slice (padded ++ rest) 0 15 = padded).
    { intros rest. unfold slice.
      replace (Z.to_nat (15 - 0)) with (List.length padded) by lia.
      replace (Z.to_nat 0) with 0%nat by lia. cbn [skipn].
      rewrite firstn_app, firstn_all, Nat.sub_diag, firstn_0, app_nil_r.
      reflexivity. }
    rewrite Es. unfold padded at 1. rewrite (strip_padded _ _ He).
    rewrite (str_ascii_ok _ Hascii). cbn [bind].
    rewrite getitem_app_tail by lia.
    replace (len pre + 15 - len pre) with 15 by lia.
    rewrite getitem_app_tail by (unfold len; lia).
    replace (15 - len padded) with 0 by (unfold len; lia).
    change (getitem ([e_type e; e_flags1 e; e_flags2 e]
                       ++ flat_map entry_bytes es ++ tail) 0)
      with (@Ok byte (e_type e)).
    cbn [bind]. fold (entry_record e).
    replace (len pre + 18) with (len (pre ++ entry_bytes e))
      by (rewrite len_app, entry_bytes_length by exact Hlen; reflexivity).
    replace (pre ++ padded ++ [e_type e; e_flags1 e; e_flags2 e]
               ++ flat_map entry_bytes es ++ tail)
      with ((pre ++ entry_bytes e) ++ flat_map entry_bytes es ++ tail)
      by (rewrite Ex, <- !app_assoc; reflexivity).
    rewrite IH by exact Hes'. cbn [map]. rewrite <- app_assoc. reflexivity.
Qed.

(** X9.  Decoding a well-formed reply gives back its name table.  After any
    56 bytes of header and answer preamble, a count byte k >= 1 and k
    entries, each a trimmed name space-padded to 15 bytes, a type byte
    and two flag bytes, the decoder returns the header's transaction id
    and the k (name, type) pairs in order; the flag bytes and whatever
    follows the last entry play no part. *)
Theorem decode_entries (hd : bytes) (kb : byte) (es : list name_entry)
  (tail : bytes) :
  len hd = 56 -> int_of_byte kb = len es -> es <> [] ->
  Forall (fun e => trimmed_bytes (e_name e)) es ->
  _decode_ip_query_packet (hd ++ [kb] ++ flat_map entry_bytes es ++ tail)
  = Ok (trn_id_of hd, Some (map entry_record es)).
Proof.
  intros Hhd Hk Hne Hes.
  pose proof (len_nonneg (flat_map entry_bytes es ++ tail)) as Hrest.
  rewrite decode_body
    by (rewrite len_app, Hhd; cbn [app]; unfold len in *;
        cbn [List.length]; lia).
  rewrite getitem_app_tail by lia. rewrite Hhd.
  change (getitem ([kb] ++ flat_map entry_bytes es ++ tail) (56 - 56))
    with (@Ok byte kb).
  cbn [bind]. rewrite Hk.
  assert (Hpos : (len es >? 0) = true).
  { apply Z.gtb_lt. destruct es; [contradiction|].
    unfold len. cbn [List.length]. lia. }
  rewrite Hpos.
  assert (Hid : trn_id_of (hd ++ [kb] ++ flat_map entry_bytes es ++ tail)
                = trn_id_of hd).
  { unfold trn_id_of, len in *. rewrite !app_nth1 by lia. reflexivity. }
  rewrite Hid.
  replace (hd ++ [kb] ++ flat_map entry_bytes es ++ tail)
    with ((hd ++ [kb]) ++ flat_map entry_bytes es ++ tail)
    by (rewrite <- app_assoc; reflexivity).
  replace (entry_offset 0) with (len (hd ++ [kb]))
    by (rewrite len_app, Hhd; reflexivity).
  replace (Z.to_nat (len es)) with (List.length es) by (unfold len; lia).
  rewrite decode_names_entries by exact Hes. reflexivity.
Qed.

Lemma trimmed_bytes_intro (b : bytes) :
  len b <= 15 -> ascii_bytes b ->
  is_space (hd x41 b) = false -> is_space (last b x41) = false ->
  trimmed_bytes b.
Proof.
  intros Hl Ha Hh Ht. repeat split; try assumption.
  - intros x rest ->. exact Hh.
  - intros front x ->. rewrite last_last in Ht. exact Ht.
Qed.

Lemma decode_entries_witness :
  _decode_ip_query_packet
    ((reply_header ++ repeat x00 44) ++ [x02]
       ++ flat_map entry_bytes
            [mk_entry (blit "WORKSTATION") x20 x04 x00;
             mk_entry (blit "WORKGROUP") x00 x84 x00] ++ [])
  = Ok (0x1234, Some [(lit "WORKSTATION", 0x20); (lit "WORKGROUP", 0x00)]).
Proof.
  refine (decode_entries (reply_header ++ repeat x00 44) x02
            [mk_entry (blit "WORKSTATION") x20 x04 x00;
             mk_entry (blit "WORKGROUP") x00 x84 x00] []
            eq_refl eq_refl _ _).
  - discriminate.
  - repeat constructor;
      (apply trimmed_bytes_intro;
       [vm_compute; discriminate | unfold ascii_bytes; repeat constructor
       | reflexivity | reflexivity]).
Defined.
